(** * ClaudeCodeAgent (headless mode): a shallow embedding of
      [src/agents/claude_code_agent.py] and the properties of its
      execution core.

    Layout:
    - [PyStr]   : the [str] methods the agent uses ([lower], [strip],
                  slicing, [in], [os.path.basename]);
    - [Py]      : the values [json.loads] produces, exceptions, and the
                  effect monad (event log + exceptions);
    - [Display] : [_display_claude_progress];
    - [Agent]   : [execute_prompt] and [is_ide_open_with_correct_project];
    - [Demo]    : a runtime and small worlds to evaluate the agent on;
    - the vocabulary of the properties, then the properties. *)

From Stdlib Require Import String Ascii List ZArith Lia Bool Arith.
From Stdlib Require Import DecimalString.
Import ListNotations.
Open Scope string_scope.
Open Scope nat_scope.
Set Warnings "-register-all".

(** ** Python strings

    A Python [str] is modelled as a Rocq [string]; each [ascii] stands for
    one character with code point below 256. *)
Module PyStr.

Definition code (c : ascii) : nat := nat_of_ascii c.

(** [str.lower] on one character: A-Z, and the Latin-1 capitals
    U+00C0..U+00DE except the multiplication sign U+00D7. *)
Definition lower_char (c : ascii) : ascii :=
  let n := code c in
  if ((65 <=? n) && (n <=? 90))
     || ((192 <=? n) && (n <=? 222) && negb (n =? 215))
  then ascii_of_nat (n + 32)
  else c.

Fixpoint lower (s : string) : string :=
  match s with
  | EmptyString => EmptyString
  | String c s' => String (lower_char c) (lower s')
  end.

(** Characters removed by [str.strip()]: the code points below 256 for
    which [str.isspace] holds. *)
Definition is_space (c : ascii) : bool :=
  let n := code c in
  ((9 <=? n) && (n <=? 13)) || ((28 <=? n) && (n <=? 32))
  || (n =? 133) || (n =? 160).

Fixpoint lstrip (s : string) : string :=
  match s with
  | String c s' => if is_space c then lstrip s' else s
  | EmptyString => EmptyString
  end.

(** [rstrip] keeps a character when it is not a space or when something
    is kept after it. *)
Fixpoint rstrip (s : string) : string :=
  match s with
  | EmptyString => EmptyString
  | String c s' =>
      match rstrip s' with
      | EmptyString => if is_space c then EmptyString else String c EmptyString
      | r => String c r
      end
  end.

Definition strip (s : string) : string := rstrip (lstrip s).

(** [s[:n]] *)
Fixpoint take (n : nat) (s : string) : string :=
  match n, s with
  | S n', String c s' => String c (take n' s')
  | _, _ => EmptyString
  end.

Definition len (s : string) : nat := String.length s.

Fixpoint startswith (p s : string) : bool :=
  match p, s with
  | EmptyString, _ => true
  | String a p', String b s' => Ascii.eqb a b && startswith p' s'
  | String _ _, EmptyString => false
  end.

(** [p in s] *)
Fixpoint contains (p s : string) : bool :=
  startswith p s
  || match s with
     | EmptyString => false
     | String _ s' => contains p s'
     end.

(** [sep.join(parts)] *)
Fixpoint join (sep : string) (parts : list string) : string :=
  match parts with
  | [] => EmptyString
  | [x] => x
  | x :: rest => x ++ sep ++ join sep rest
  end.

(** [c * n] for a one-character string *)
Fixpoint repeat_char (c : ascii) (n : nat) : string :=
  match n with
  | O => EmptyString
  | S n' => String c (repeat_char c n')
  end.

(** [os.path.basename] (posixpath): what follows the last slash. *)
Fixpoint basename (p : string) : string :=
  match p with
  | EmptyString => EmptyString
  | String c p' =>
      if Ascii.eqb c "/"%char then basename p'
      else if contains "/" p' then basename p'
      else p
  end.

(** [str(n)] for an [int] *)
Definition of_Z (z : Z) : string := NilEmpty.string_of_int (Z.to_int z).

Definition of_nat (n : nat) : string := of_Z (Z.of_nat n).

(** Python truth value of a [str] *)
Definition nonempty (s : string) : bool :=
  match s with EmptyString => false | _ => true end.

End PyStr.

(** ** Python values, exceptions and effects *)
Module Py.

(** A binary64 float, kept abstract: the agent only observes its truth
    value (and prints it through the runtime's formatting). *)
Record pyfloat := mkFloat { float_is_zero : bool; float_literal : string }.

(** What [json.loads] can return. A [dict] is kept as its items, in
    order; keys are distinct, so lookup takes the first match. *)
Inductive value :=
| VNone
| VBool (b : bool)
| VInt (z : Z)
| VFloat (f : pyfloat)
| VStr (s : string)
| VList (items : list value)
| VDict (items : list (string * value)).

(** [type(v).__name__] *)
Definition type_name (v : value) : string :=
  match v with
  | VNone => "NoneType"
  | VBool _ => "bool"
  | VInt _ => "int"
  | VFloat _ => "float"
  | VStr _ => "str"
  | VList _ => "list"
  | VDict _ => "dict"
  end.

(** Python truth value, as tested by [if x:] *)
Definition truthy (v : value) : bool :=
  match v with
  | VNone => false
  | VBool b => b
  | VInt z => negb (Z.eqb z 0)
  | VFloat f => negb (float_is_zero f)
  | VStr s => PyStr.nonempty s
  | VList l => match l with [] => false | _ => true end
  | VDict d => match d with [] => false | _ => true end
  end.

(** [v == 'literal'] *)
Definition eq_str (v : value) (lit : string) : bool :=
  match v with
  | VStr s => String.eqb s lit
  | _ => false
  end.

Fixpoint lookup (k : string) (d : list (string * value)) : option value :=
  match d with
  | [] => None
  | (k', v) :: d' => if String.eqb k k' then Some v else lookup k d'
  end.

(** The exceptions that can arise in the agent. All of them derive from
    [Exception]; [TimeoutExpired] is [subprocess.TimeoutExpired].
    [AgentTimeoutException] is declared in [common.exceptions]: it is
    built from the agent name, the timeout and a message.
    [ArtifactUnavailable] is the failure of the result-artifact reader. *)
Inductive exn :=
| TimeoutExpired
| AgentTimeoutException (agent_name : string) (timeout_seconds : nat) (message : string)
| JSONDecodeError
| AttributeError (type_of_object attribute : string)
| TypeError (what : string)
| ValueError (what : string)
| OverflowError (what : string)
| KeyError (what : string)
| RecursionError (what : string)
| OSError (what : string)
| ArtifactUnavailable (what : string).

(** What [json.loads] does with a text: it returns a value, or it raises
    [json.JSONDecodeError] on text that is not JSON, or it fails in
    another way, with [RecursionError] on nesting that is too deep or with
    a plain [ValueError] on an integer of more than 4300 digits. *)
Inductive decoder_failure :=
| NestingTooDeep
| IntegerTooLong.

Inductive decoded :=
| Decoded (v : value)
| NotJSON
| DecoderFailed (why : decoder_failure).

Definition decoder_exn (why : decoder_failure) : exn :=
  match why with
  | NestingTooDeep => RecursionError "maximum recursion depth exceeded"
  | IntegerTooLong =>
      ValueError "Exceeds the limit (4300 digits) for integer string conversion"
  end.

(** What the interpreter and its libraries supply: the JSON decoder, the
    text of a value inside an f-string, number formatting, [str(e)], and
    whether a slice object can be hashed (from Python 3.12 on). *)
Class Runtime := {
  json_loads : string -> decoded;           (* json.loads *)
  py_repr : value -> string;                (* str(v) for a v that is not a str *)
  format_seconds : value -> option string;  (* f"{duration/1000:.1f}" of a number; None: too large for a float *)
  format_cost : value -> option string;     (* f"{cost:.4f}" of a number; None: too large for a float *)
  str_exn : exn -> string;                  (* str(e) *)
  agent_timeout_is_exception : bool;        (* AgentTimeoutException derives from Exception *)
  slice_is_hashable : bool                  (* Python 3.12 and later *)
}.

(** Observable effects, in order. *)
Inductive event :=
| Print (line : string)
| Input (prompt : string)
| Popen (cmd : list string) (cwd : string)
| Kill
| ReadOutputFile (path : string).

Inductive result (A : Type) :=
| Ok (a : A)
| Raise (e : exn).
Arguments Ok {A} a.
Arguments Raise {A} e.

(** A computation: the events it performed and how it ended. *)
Definition M (A : Type) : Type := list event * result A.

Definition ret {A} (a : A) : M A := ([], Ok a).

Definition bind {A B} (m : M A) (k : A -> M B) : M B :=
  match m with
  | (log, Ok a) => let (log', r) := k a in ((log ++ log')%list, r)
  | (log, Raise e) => (log, Raise e)
  end.

Definition raise {A} (e : exn) : M A := ([], Raise e).

Definition emit (ev : event) : M unit := ([ev], Ok tt).

Definition print (line : string) : M unit := emit (Print line).

(** [try: m except c1: h1 except c2: h2 ...]: the first clause whose class
    matches handles the exception; what a handler raises is not offered to
    the later clauses of the same [try]. *)
Definition clause (A : Type) : Type := ((exn -> bool) * (exn -> M A))%type.

Fixpoint dispatch {A} (clauses : list (clause A)) (e : exn) : M A :=
  match clauses with
  | [] => raise e
  | (handles, handler) :: rest => if handles e then handler e else dispatch rest e
  end.

Definition try_except {A} (m : M A) (clauses : list (clause A)) : M A :=
  match m with
  | (log, Raise e) => let (log', r) := dispatch clauses e in ((log ++ log')%list, r)
  | done => done
  end.

Definition log_of {A} (m : M A) : list event := fst m.
Definition outcome_of {A} (m : M A) : result A := snd m.

Declare Scope py_scope.
Delimit Scope py_scope with py.
Notation "x <- m ;; k" := (bind m (fun x => k))
  (at level 61, m at next level, right associativity) : py_scope.
Notation "m ;; k" := (bind m (fun _ => k))
  (at level 61, right associativity) : py_scope.

(** [for x in xs: body x] *)
Fixpoint for_each {A} (xs : list A) (body : A -> M unit) : M unit :=
  match xs with
  | [] => ret tt
  | x :: xs' => bind (body x) (fun _ => for_each xs' body)
  end.

(** [d.get(k, default)]: any object other than a dict has no [get]. *)
Definition get (d : value) (k : string) (default : value) : M value :=
  match d with
  | VDict items =>
      ret (match lookup k items with Some v => v | None => default end)
  | _ => raise (AttributeError (type_name d) "get")
  end.

(** The items a [for] loop draws from a value. *)
Definition iterate (v : value) : M (list value) :=
  match v with
  | VList l => ret l
  | VStr s => ret (map (fun c => VStr (String c EmptyString)) (list_ascii_of_string s))
  | VDict d => ret (map (fun kv => VStr (fst kv)) d)
  | _ => raise (TypeError "object is not iterable")
  end.

(** [v[:n]]. A dict looks the slice up as a key: where a slice can be
    hashed the key is missing (the keys of a decoded object are strings)
    and the lookup raises KeyError; elsewhere hashing it raises TypeError. *)
Definition slice `{Runtime} (n : nat) (v : value) : M value :=
  match v with
  | VStr s => ret (VStr (PyStr.take n s))
  | VList l => ret (VList (firstn n l))
  | VDict _ =>
      if slice_is_hashable then raise (KeyError "slice(None, n, None)")
      else raise (TypeError "unhashable type: 'slice'")
  | _ => raise (TypeError "object is not subscriptable")
  end.

(** [len(v)] *)
Definition len (v : value) : M nat :=
  match v with
  | VStr s => ret (PyStr.len s)
  | VList l => ret (List.length l)
  | VDict d => ret (List.length d)
  | _ => raise (TypeError "object has no len()")
  end.

(** The strings of a list of values, when all of them are [str]. *)
Fixpoint all_str (l : list value) : option (list string) :=
  match l with
  | [] => Some []
  | VStr s :: l' => option_map (cons s) (all_str l')
  | _ :: _ => None
  end.

(** [sep.join(v)] *)
Definition join (sep : string) (v : value) : M string :=
  match v with
  | VStr s =>
      ret (PyStr.join sep (map (fun c => String c EmptyString) (list_ascii_of_string s)))
  | VList l =>
      match all_str l with
      | Some parts => ret (PyStr.join sep parts)
      | None => raise (TypeError "sequence item: expected str instance")
      end
  | VDict d => ret (PyStr.join sep (map fst d))
  | _ => raise (TypeError "can only join an iterable")
  end.

(** [v.lower()], [v.strip()]: methods of [str] only. *)
Definition lower (v : value) : M string :=
  match v with
  | VStr s => ret (PyStr.lower s)
  | _ => raise (AttributeError (type_name v) "lower")
  end.

Definition strip (v : value) : M string :=
  match v with
  | VStr s => ret (PyStr.strip s)
  | _ => raise (AttributeError (type_name v) "strip")
  end.

(** [os.path.basename(v)] *)
Definition os_path_basename (v : value) : M string :=
  match v with
  | VStr s => ret (PyStr.basename s)
  | _ => raise (TypeError "expected str, bytes or os.PathLike object")
  end.

(** A value as an f-string shows it. *)
Definition fmt `{Runtime} (v : value) : string :=
  match v with
  | VStr s => s
  | _ => py_repr v
  end.

(** A value that supports [/ 1000] and the [f] format code. *)
Definition is_number (v : value) : bool :=
  match v with
  | VBool _ | VInt _ | VFloat _ => true
  | _ => false
  end.

End Py.

(** ** [_display_claude_progress] *)
Module Display.
Import Py.
Local Open Scope py_scope.

(** The newline character of ["\n"]. *)
Definition nl : string := String (ascii_of_nat 10) EmptyString.

(** ['...' if n > limit else ''] *)
Definition ellipsis_if_longer (limit n : nat) : string :=
  if limit <? n then "..." else EmptyString.

(** The ['system'] branch (lines 46-52). *)
Definition display_system `{Runtime} (json_obj : value) : M unit :=
  subtype <- get json_obj "subtype" VNone ;;
  if eq_str subtype "init" then
    print "Initializing Claude session..." ;;
    model <- get json_obj "model" (VStr "unknown") ;;
    print ("   Model: " ++ fmt model) ;;
    tools <- get json_obj "tools" (VList []) ;;
    if truthy tools then
      first5 <- slice 5 tools ;;
      joined <- join ", " first5 ;;
      n <- len tools ;;
      print ("   Available tools: " ++ joined ++ ellipsis_if_longer 5 n)
    else ret tt
  else ret tt.

(** The three file tools share one shape (lines 69-83); [verb] is
    ["Creating"], ["Editing"] or ["Reading"]. *)
Definition display_file_tool (verb : string) (content_item : value) : M unit :=
  input_data <- get content_item "input" (VDict []) ;;
  file_path <- get input_data "file_path" (VStr EmptyString) ;;
  if truthy file_path then
    base <- os_path_basename file_path ;;
    print ("   " ++ verb ++ " file: " ++ base)
  else ret tt.

(** The ['Bash'] tool (lines 84-88). *)
Definition display_bash `{Runtime} (content_item : value) : M unit :=
  input_data <- get content_item "input" (VDict []) ;;
  command <- get input_data "command" (VStr EmptyString) ;;
  if truthy command then
    head <- slice 50 command ;;
    n <- len command ;;
    print ("   Running: " ++ fmt head ++ ellipsis_if_longer 50 n)
  else ret tt.

(** One item of an assistant message (lines 59-88). *)
Definition display_assistant_item `{Runtime} (content_item : value) : M unit :=
  ty <- get content_item "type" VNone ;;
  if eq_str ty "text" then
    text <- get content_item "text" (VStr EmptyString) ;;
    stripped <- strip text ;;
    if PyStr.nonempty stripped then print (nl ++ fmt text) else ret tt
  else
    ty' <- get content_item "type" VNone ;;
    if eq_str ty' "tool_use" then
      tool_name <- get content_item "name" (VStr "unknown") ;;
      print (nl ++ "Using tool: " ++ fmt tool_name) ;;
      if eq_str tool_name "Write" then display_file_tool "Creating" content_item
      else if eq_str tool_name "Edit" then display_file_tool "Editing" content_item
      else if eq_str tool_name "Read" then display_file_tool "Reading" content_item
      else if eq_str tool_name "Bash" then display_bash content_item
      else ret tt
    else ret tt.

(** The text of a tool result (lines 96-102). [result_content.lower()]
    is evaluated up to three times on the same object; it raises the first
    time or never, so it is bound once. *)
Definition display_tool_result `{Runtime} (result_content : value) : M unit :=
  low <- lower result_content ;;
  if PyStr.contains "successfully" low then
    print "   Success"
  else if PyStr.contains "error" low || PyStr.contains "failed" low then
    head <- slice 100 result_content ;;
    print ("   Error: " ++ fmt head ++ "...")
  else
    head <- slice 100 result_content ;;
    n <- len result_content ;;
    print ("   " ++ fmt head ++ ellipsis_if_longer 100 n).

(** One item of a user message (lines 95-102). *)
Definition display_user_item `{Runtime} (content_item : value) : M unit :=
  ty <- get content_item "type" VNone ;;
  if eq_str ty "tool_result" then
    result_content <- get content_item "content" (VStr EmptyString) ;;
    display_tool_result result_content
  else ret tt.

(** The ['result'] branch (lines 105-114). *)
Definition display_result `{Runtime} (json_obj : value) : M unit :=
  subtype <- get json_obj "subtype" VNone ;;
  if eq_str subtype "success" then
    result <- get json_obj "result" (VStr EmptyString) ;;
    cost <- get json_obj "cost_usd" (VInt 0) ;;
    duration <- get json_obj "duration_ms" (VInt 0) ;;
    print (nl ++ "Task completed successfully!") ;;
    (if truthy result then print ("   Result: " ++ fmt result) else ret tt) ;;
    seconds <- (if is_number duration then
                  match format_seconds duration with
                  | Some text => ret text
                  | None => raise (OverflowError "integer division result too large for a float")
                  end
                else raise (TypeError "unsupported operand type(s) for /")) ;;
    dollars <- (if is_number cost then
                  match format_cost cost with
                  | Some text => ret text
                  | None => raise (OverflowError "int too large to convert to float")
                  end
                else match cost with
                     | VStr _ => raise (ValueError "Unknown format code 'f'")
                     | _ => raise (TypeError "unsupported format string")
                     end) ;;
    print ("   Duration: " ++ seconds ++ "s, Cost: $" ++ dollars)
  else
    err <- get json_obj "error" (VStr "Unknown error") ;;
    print (nl ++ "Task failed: " ++ fmt err).

(** [_display_claude_progress] (lines 44-114). The [type] field is looked
    up again by every [elif]. *)
Definition _display_claude_progress `{Runtime} (json_obj : value) : M unit :=
  t1 <- get json_obj "type" VNone ;;
  if eq_str t1 "system" then display_system json_obj
  else
    t2 <- get json_obj "type" VNone ;;
    if eq_str t2 "assistant" then
      message <- get json_obj "message" (VDict []) ;;
      content <- get message "content" (VList []) ;;
      items <- iterate content ;;
      for_each items display_assistant_item
    else
      t3 <- get json_obj "type" VNone ;;
      if eq_str t3 "user" then
        message <- get json_obj "message" (VDict []) ;;
        content <- get message "content" (VList []) ;;
        items <- iterate content ;;
        for_each items display_user_item
      else
        t4 <- get json_obj "type" VNone ;;
        if eq_str t4 "result" then display_result json_obj
        else ret tt.

End Display.

(** ** The agent *)
Module Agent.
Import Py Display.
Local Open Scope py_scope.

(** Modelled from the spec: [AgentResponse] is declared in the base module,
    which is not part of the sources; it is the spec's ExecutionOutcome
    [{succeeded, content, error_message: optional string}], and
    [error_message] is absent when the constructor is not given one. *)
Record AgentResponse := mkResponse {
  content : string;
  success : bool;
  error_message : option string
}.

(** The fields of [self] that the agent reads; all but [repo_dir] are
    set by the base class. *)
Record Self := mkSelf {
  agent_name : string;
  output_file : string;
  repo_dir : string;
  _current_project_name : option string
}.

(** The child process as its supervisor observes it. Times are seconds
    since the spawn. [readline()] hands out [stdout_lines] one by one and
    returns [''] once standard output is closed, at [stdout_eof_at];
    [poll()] is [None] before [exit_at] and [returncode] from then on. *)
Record Process := mkProcess {
  stdout_lines : list string;
  stdout_eof_at : nat;
  exit_at : nat;
  returncode : Z;
  stderr_text : string
}.

(** What [subprocess.Popen] does: the child is started, or the launch
    fails with an [OSError] (for example [FileNotFoundError]). *)
Inductive launch :=
| Started (p : Process)
| LaunchFailed (what : string).

(** Everything outside the agent that one call depends on. *)
Record World := mkWorld {
  approval : string;                       (* what input() returns *)
  spawn : launch;                          (* what subprocess.Popen does *)
  agent_timeout_seconds : nat;             (* config.agent_timeout_seconds *)
  artifact : option string;                (* the text of the output file, when it can be read *)
  getcwd : string                          (* os.getcwd() *)
}.

Definition is_TimeoutExpired (e : exn) : bool :=
  match e with TimeoutExpired => true | _ => false end.

Definition is_JSONDecodeError (e : exn) : bool :=
  match e with JSONDecodeError => true | _ => false end.

(** [isinstance(e, Exception)] *)
Definition is_Exception `{Runtime} (e : exn) : bool :=
  match e with
  | AgentTimeoutException _ _ _ => agent_timeout_is_exception
  | _ => true
  end.

(** [process.wait(timeout=t)] called at time [now]: the exit code when the
    child has exited by [now + t], [TimeoutExpired] otherwise. *)
Definition Popen_wait (p : Process) (now t : nat) : M Z :=
  if exit_at p <=? now + t then ret (returncode p) else raise TimeoutExpired.

(** The body of the read loop for one line that [readline()] returned
    (lines 164-173); the line is also appended to the transcript by the
    caller. *)
Definition handle_output `{Runtime} (output : string) : M unit :=
  if PyStr.nonempty output then
    try_except
      (match json_loads (PyStr.strip output) with
       | Decoded json_obj => _display_claude_progress json_obj
       | NotJSON => raise JSONDecodeError
       | DecoderFailed why => raise (decoder_exn why)
       end)
      [(is_JSONDecodeError,
        fun _ =>
          if PyStr.nonempty (PyStr.strip output)
          then print ("[Output]: " ++ PyStr.strip output)
          else ret tt)]
  else ret tt.

(** The read loop (lines 160-173), over the lines still to come. When
    they are exhausted [readline()] returns [''] and the loop spins until
    [poll()] reports the exit; then it breaks. Returns the transcript. *)
Fixpoint read_loop `{Runtime} (pending : list string) (transcript : list string)
  : M (list string) :=
  match pending with
  | [] => ret transcript
  | output :: rest =>
      handle_output output ;;
      read_loop rest
        (if PyStr.nonempty output then (transcript ++ [PyStr.strip output])%list
         else transcript)
  end.

(** The time at which the read loop breaks: standard output is closed and
    the child has exited. *)
Definition loop_exit_time (p : Process) : nat :=
  Nat.max (stdout_eof_at p) (exit_at p).

(** The inner [try] (lines 159-189): stream, wait, collect stderr. Returns
    the exit code and [stderr_lines]. Its [except] clause (lines 187-189)
    kills the child, then raises. *)
Definition supervise_clauses (self : Self) (w : World) : list (clause (Z * list string)) :=
  [(is_TimeoutExpired,
    fun _ =>
      bind (emit Kill) (fun _ =>
      raise (AgentTimeoutException (agent_name self) (agent_timeout_seconds w)
               "Claude command execution timed out")))].

Definition supervise `{Runtime} (self : Self) (w : World) (p : Process)
  : M (Z * list string) :=
  let timeout_seconds := agent_timeout_seconds w in
  try_except
    (_ <- read_loop (stdout_lines p) [] ;;
     return_code <- Popen_wait p (loop_exit_time p) timeout_seconds ;;
     let stderr_output := stderr_text p in
     let stderr_lines :=
       if PyStr.nonempty stderr_output then [stderr_output] else [] in
     print (nl ++ PyStr.repeat_char "-" 50) ;;
     print ("Claude execution completed with return code: " ++ PyStr.of_Z return_code) ;;
     ret (return_code, stderr_lines))
    (supervise_clauses self w).

(** Modelled from the spec: [_read_output_file] is a method of the base
    class, which is not part of the sources; it is the spec's artifact
    reader, which returns the full text of the output file or fails with
    [ArtifactUnavailable]. *)
Definition _read_output_file (self : Self) (w : World) : M string :=
  emit (ReadOutputFile (output_file self)) ;;
  match artifact w with
  | Some text => ret text
  | None => raise (ArtifactUnavailable (output_file self))
  end.

(** The directive appended to the prompt (line 130). *)
Definition combined_prompt (self : Self) (prompt : string) : string :=
  prompt ++ nl ++ nl
  ++ "After completing the above task, please save a comprehensive summary of everything you did to a file called '"
  ++ output_file self
  ++ "' in the current directory. Include:" ++ nl
  ++ "- All changes made" ++ nl
  ++ "- Explanations of what was done." ++ nl ++ nl
  ++ "IMPORTANT: Do NOT create or update any documentation files (such as README.md or docs/*) unless you are explicitly asked to do so in the original prompt. If you believe that creating a documentation file would help you better implement the required coding task, you may create it, but you must delete it once you are finished and before you finish the task.".

(** [a or b] on strings *)
Definition str_or (a b : string) : string :=
  if PyStr.nonempty a then a else b.

(** The outer [try] body (lines 129-207). *)
Definition run `{Runtime} (self : Self) (w : World) (prompt : string) : M AgentResponse :=
  let cmd := ["claude"; "-p"; combined_prompt self prompt;
              "--output-format"; "stream-json";
              "--dangerously-skip-permissions"] in
  print ("Executing prompt in " ++ agent_name self ++ " headless mode. Prompt: " ++ prompt) ;;
  print "Streaming Claude's response in real-time..." ;;
  print (PyStr.repeat_char "-" 50) ;;
  emit (Popen cmd (repo_dir self)) ;;
  process <- match spawn w with
             | Started p => ret p
             | LaunchFailed what => raise (OSError what)
             end ;;
  rc_err <- supervise self w process ;;
  let return_code := fst rc_err in
  let stderr_lines := snd rc_err in
  if Z.eqb return_code 0 then
    print ("Reading output from " ++ output_file self ++ "...") ;;
    text <- _read_output_file self w ;;
    ret (mkResponse text true None)
  else
    let error_msg :=
      str_or (PyStr.join nl stderr_lines)
             ("Command failed with return code " ++ PyStr.of_Z return_code) in
    print ("ERROR: Claude command failed: " ++ error_msg) ;;
    ret (mkResponse EmptyString false (Some error_msg)).

(** The [except] clauses of the outer [try] (lines 209-217). *)
Definition outer_clauses `{Runtime} (self : Self) (w : World) : list (clause AgentResponse) :=
  [(is_TimeoutExpired,
    fun _ =>
      raise (AgentTimeoutException (agent_name self) (agent_timeout_seconds w)
               "Claude command timed out"));
   (is_Exception,
    fun e =>
      ret (mkResponse EmptyString false
             (Some ("Failed to execute Claude command: " ++ str_exn e))))].

(** The outcome of the confirmation gate when the operator declines
    (lines 122-126). *)
Definition cancelled : AgentResponse :=
  mkResponse "Operation cancelled by user" false
    (Some "User did not approve execution with dangerous permissions").

(** [execute_prompt] (lines 116-217). [Raise e] is an exception that
    leaves the method. *)
Definition execute_prompt `{Runtime} (self : Self) (w : World) (prompt : string)
  : M AgentResponse :=
  print (nl ++ "WARNING: This will execute Claude with --dangerously-skip-permissions") ;;
  print "This gives Claude full access to execute commands in the repository directory" ;;
  emit (Input "Do you want to continue? (y/n): ") ;;
  if negb (String.eqb (PyStr.lower (approval w)) "y") then
    ret cancelled
  else
    try_except (run self w prompt) (outer_clauses self w).

(** [not self._current_project_name]: unset, or the empty string. *)
Definition project_name_set (self : Self) : bool :=
  match _current_project_name self with
  | Some name => PyStr.nonempty name
  | None => false
  end.

(** [is_ide_open_with_correct_project] (lines 240-257). *)
Definition is_ide_open_with_correct_project (self : Self) (w : World) : M bool :=
  match _current_project_name self with
  | Some (String c name') =>
      let name := String c name' in
      let current_dir := getcwd w in
      let current_project := PyStr.basename current_dir in
      if PyStr.contains (PyStr.lower name) (PyStr.lower current_project) then
        print ("SUCCESS: Claude Code is in the correct project directory '"
               ++ current_project ++ "'") ;;
        ret true
      else
        print ("Claude Code is in directory '" ++ current_project
               ++ "' but expected project '" ++ name ++ "'") ;;
        ret false
  | _ =>
      print ("Warning: No project name set for " ++ agent_name self
             ++ ", cannot verify project-specific directory") ;;
      ret false
  end.

End Agent.

(** ** A runtime and worlds for the examples *)
Module Demo.
Import Py Display Agent.

(** A line feed terminates each line that [readline()] returns. *)
Definition line (s : string) : string := s ++ nl.

(** A decoder that knows the lines used in the examples below; any other
    text is treated as not being JSON. *)
Definition demo_loads (s : string) : decoded :=
  if String.eqb s "123" then Decoded (VInt 123)
  else if String.eqb s "null" then Decoded VNone
  else if String.eqb s "[]" then Decoded (VList [])
  else if String.eqb s "{}" then Decoded (VDict [])
  else NotJSON.

#[export] Instance demo_runtime : Runtime := {
  json_loads := demo_loads;
  py_repr := fun v => "<" ++ type_name v ++ ">";
  format_seconds := fun _ => Some "0.0";
  format_cost := fun _ => Some "0.0000";
  str_exn := fun e =>
    match e with
    | AttributeError ty attr =>
        "'" ++ ty ++ "' object has no attribute '" ++ attr ++ "'"
    | TypeError what | ValueError what | OverflowError what
    | KeyError what | RecursionError what
    | OSError what | ArtifactUnavailable what => what
    | AgentTimeoutException _ _ message => message
    | TimeoutExpired => "timed out"
    | JSONDecodeError => "Expecting value"
    end;
  agent_timeout_is_exception := true;
  slice_is_hashable := true
}.

Definition demo_self : Self :=
  mkSelf "claude_code" "output.md" "/work/shop" (Some "shop").

(** A child that prints [out], closes its output and exits at
    [exit_at] with [code], having written [err] to standard error. *)
Definition child (out : list string) (exit_at : nat) (code : Z) (err : string) : Process :=
  mkProcess out exit_at exit_at code err.

Definition world (answer : string) (p : Process) (file : option string) : World :=
  mkWorld answer (Started p) 600 file "/work/shop".

(** A child that runs for 700 seconds, beyond the 600 second timeout,
    and then exits with code 0. *)
Definition late_child : Process := child [line "working"] 700 0 EmptyString.

Definition late_world : World := world "y" late_child (Some "done").

(** A [tool_use] item of an assistant message that runs [command] in the
    shell. *)
Definition bash_item (command : string) : list (string * value) :=
  [("type", VStr "tool_use"); ("name", VStr "Bash");
   ("input", VDict [("command", VStr command)])].

(** Two thousand opening brackets: nesting beyond what the decoder
    accepts. *)
Definition deep_text : string := PyStr.repeat_char "[" 2000.

Definition limited_loads (s : string) : decoded :=
  if String.eqb s deep_text then DecoderFailed NestingTooDeep else demo_loads s.

(** The demo runtime with a decoder that gives up on [deep_text]. *)
Definition limited_runtime : Runtime :=
  {| json_loads := limited_loads;
     py_repr := @py_repr demo_runtime;
     format_seconds := @format_seconds demo_runtime;
     format_cost := @format_cost demo_runtime;
     str_exn := @str_exn demo_runtime;
     agent_timeout_is_exception := true;
     slice_is_hashable := true |}.

(** 63 characters. *)
Definition long_command : string :=
  "find . -name '*.py' -exec grep -n 'TODO' {} + | sort | head -20".

End Demo.

(** ** Vocabulary of the properties *)

Import Py Display Agent.
Local Open Scope py_scope.

(** [plain e]: an error of the dynamic typing or of number formatting,
    neither a timeout nor a decode error. *)
Definition plain (e : exn) : bool :=
  match e with
  | AttributeError _ _ | TypeError _ | ValueError _ | OverflowError _
  | KeyError _ => true
  | _ => false
  end.

(** What a step of the read loop can raise: a plain error of the display,
    or the decoder's [RecursionError]. *)
Definition loop_plain (e : exn) : bool :=
  plain e || match e with RecursionError _ => true | _ => false end.

Definition is_print (ev : event) : bool :=
  match ev with Print _ => true | _ => false end.

(** A computation is benign when it only prints and raises nothing but
    plain errors. *)
Definition benign {A} (m : M A) : Prop :=
  forallb is_print (log_of m) = true
  /\ match outcome_of m with
     | Ok _ => True
     | Raise e => plain e = true
     end.

(** The same for the read loop, with [loop_plain]. *)
Definition loop_benign {A} (m : M A) : Prop :=
  forallb is_print (log_of m) = true
  /\ match outcome_of m with
     | Ok _ => True
     | Raise e => loop_plain e = true
     end.

(** [stderr_lines] after the wait (lines 180-182). *)
Definition stderr_lines_of (p : Process) : list string :=
  if PyStr.nonempty (stderr_text p) then [stderr_text p] else [].

(** [error_msg] of the non-zero branch (line 201). *)
Definition error_msg_of (p : Process) : string :=
  str_or (PyStr.join nl (stderr_lines_of p))
         ("Command failed with return code " ++ PyStr.of_Z (returncode p)).

(** The response of the catch-all handler (lines 213-217). *)
Definition failure `{Runtime} (e : exn) : AgentResponse :=
  mkResponse EmptyString false
    (Some ("Failed to execute Claude command: " ++ str_exn e)).

Definition is_kill (ev : event) : bool :=
  match ev with Kill => true | _ => false end.

Definition is_popen (ev : event) : bool :=
  match ev with Popen _ _ => true | _ => false end.

(** What the outer [try] body ends with. *)
Definition reconciled (self : Self) (w : World) (p : Process) : result AgentResponse :=
  if Z.eqb (returncode p) 0 then
    match artifact w with
    | Some text => Ok (mkResponse text true None)
    | None => Raise (ArtifactUnavailable (output_file self))
    end
  else Ok (mkResponse EmptyString false (Some (error_msg_of p))).

Definition is_dict (v : value) : bool :=
  match v with VDict _ => true | _ => false end.

(** The events of the confirmation gate (lines 118-120). *)
Definition gate_log : list event :=
  [Print (nl ++ "WARNING: This will execute Claude with --dangerously-skip-permissions");
   Print "This gives Claude full access to execute commands in the repository directory";
   Input "Do you want to continue? (y/n): "].

(** The paths through [execute_prompt], each with the response it
    returns: the operator declined; the launch failed; a line of output broke
    the display; exit code 0 with the artifact read; exit code 0 with the
    artifact unreadable; a non-zero exit code. *)
Inductive path `{Runtime} (self : Self) (w : World) : AgentResponse -> Prop :=
| path_declined :
    PyStr.lower (approval w) <> "y" ->
    path self w cancelled
| path_launch_failed what :
    PyStr.lower (approval w) = "y" ->
    spawn w = LaunchFailed what ->
    path self w (failure (OSError what))
| path_stream_broken p e :
    PyStr.lower (approval w) = "y" ->
    spawn w = Started p ->
    outcome_of (read_loop (stdout_lines p) []) = Raise e ->
    loop_plain e = true ->
    path self w (failure e)
| path_success p transcript text :
    PyStr.lower (approval w) = "y" ->
    spawn w = Started p ->
    outcome_of (read_loop (stdout_lines p) []) = Ok transcript ->
    returncode p = 0%Z ->
    artifact w = Some text ->
    path self w (mkResponse text true None)
| path_unreadable p transcript :
    PyStr.lower (approval w) = "y" ->
    spawn w = Started p ->
    outcome_of (read_loop (stdout_lines p) []) = Ok transcript ->
    returncode p = 0%Z ->
    artifact w = None ->
    path self w (failure (ArtifactUnavailable (output_file self)))
| path_nonzero p transcript :
    PyStr.lower (approval w) = "y" ->
    spawn w = Started p ->
    outcome_of (read_loop (stdout_lines p) []) = Ok transcript ->
    returncode p <> 0%Z ->
    path self w (mkResponse EmptyString false (Some (error_msg_of p))).

(** ** Readiness checks *)
Module Readiness.
Import Py Display Agent.
Local Open Scope py_scope.

(** What [subprocess.run(['which', 'claude'], capture_output=True,
    text=True)] does: it completes with an exit code and the captured
    standard output, or it fails with an [OSError]. *)
Inductive which_run :=
| Completed (returncode : Z) (stdout : string)
| RunFailed (what : string).

(** A field that may be [None], as an f-string shows it. *)
Definition fmt_optional (o : option string) : string :=
  match o with
  | Some s => s
  | None => "None"
  end.

(** [is_coding_agent_open] (lines 219-238); [probe] is what the call of
    [which] does. *)
Definition is_coding_agent_open `{Runtime} (probe : which_run) : M bool :=
  try_except
    (result <- match probe with
               | Completed rc out => ret (rc, out)
               | RunFailed what => raise (OSError what)
               end ;;
     if Z.eqb (fst result) 0 then
       print ("SUCCESS: Claude Code command is available at "
              ++ PyStr.strip (snd result)) ;;
       ret true
     else
       print "INFO: Claude Code command not found in PATH" ;;
       ret false)
    [(is_Exception,
      fun e =>
        print ("INFO: Could not check for Claude Code command: " ++ str_exn e) ;;
        ret false)].

(** [is_coding_agent_open_with_project] (lines 259-277). *)
Definition is_coding_agent_open_with_project `{Runtime}
    (self : Self) (w : World) (probe : which_run) : M bool :=
  available <- is_coding_agent_open probe ;;
  if negb available then ret false
  else
    correct <- is_ide_open_with_correct_project self w ;;
    if negb correct then
      print (agent_name self
             ++ " command is available but not in the correct project directory '"
             ++ fmt_optional (_current_project_name self) ++ "'") ;;
      ret false
    else
      print ("SUCCESS: " ++ agent_name self
             ++ " is available and in the correct project directory '"
             ++ fmt_optional (_current_project_name self) ++ "'") ;;
      ret true.

(** [self._current_project_name] as a condition *)
Definition project_name_truthy (self : Self) : bool :=
  match _current_project_name self with
  | Some name => PyStr.nonempty name
  | None => false
  end.

(** [open_coding_interface] (lines 279-303). [set_current_project] is a
    method of the base class, which is not part of the sources: it is
    taken as a parameter that returns the updated object, possibly after
    printing. [first] and [second] are what the two calls of [which] do;
    the second call is made only when the first check fails. *)
Definition open_coding_interface `{Runtime}
    (set_current_project : Self -> string -> M Self)
    (self : Self) (w : World) (first second : which_run) : M bool :=
  print ("Checking " ++ agent_name self ++ " availability...") ;;
  self' <- (if PyStr.nonempty (repo_dir self)
            then set_current_project self (repo_dir self)
            else ret self) ;;
  ready <- is_coding_agent_open_with_project self' w first ;;
  if ready then
    print ("SUCCESS: " ++ agent_name self'
           ++ " is ready for headless operation in correct project") ;;
    ret true
  else
    available <- is_coding_agent_open second ;;
    if available then
      (if project_name_truthy self' then
         print "Claude Code is available but not in correct project directory" ;;
         print ("Current directory: " ++ getcwd w) ;;
         print ("Expected project: " ++ fmt_optional (_current_project_name self')) ;;
         print "Note: For headless mode, ensure you're running from the correct project directory"
       else ret tt) ;;
      ret false
    else
      print ("ERROR: " ++ agent_name self'
             ++ " command not available. Please install Claude Code.") ;;
      print "Install instructions: https://github.com/anthropics/claude-code" ;;
      ret false.

(** [close_coding_interface] (lines 305-313). *)
Definition close_coding_interface (self : Self) : M bool :=
  print ("INFO: " ++ agent_name self ++ " is headless - no interface to close") ;;
  print "Headless agents don't maintain persistent interfaces that need closing" ;;
  ret true.

End Readiness.

(** ** Further vocabulary *)

Definition is_read (ev : event) : bool :=
  match ev with ReadOutputFile _ => true | _ => false end.

(** The command line of the child (lines 133-138). *)
Definition command_line (self : Self) (prompt : string) : list string :=
  ["claude"; "-p"; combined_prompt self prompt;
   "--output-format"; "stream-json"; "--dangerously-skip-permissions"].

(** What the loop prints for a line that is not JSON. *)
Definition echo (output : string) : list event :=
  if PyStr.nonempty output && PyStr.nonempty (PyStr.strip output)
  then [Print ("[Output]: " ++ PyStr.strip output)] else [].

(** The transcript entries of the lines read. *)
Definition transcript_of (lines : list string) : list string :=
  map PyStr.strip (filter PyStr.nonempty lines).

Fixpoint all_space (s : string) : bool :=
  match s with
  | EmptyString => true
  | String c s' => PyStr.is_space c && all_space s'
  end.

(** The text of a printed line; other events have none. *)
Definition printed (ev : event) : string :=
  match ev with Print line => line | _ => EmptyString end.

(** The type names other than the four that the display knows. *)
Definition known_type (v : value) : bool :=
  eq_str v "system" || eq_str v "assistant" || eq_str v "user" || eq_str v "result".

(** * Properties *)

(** ** Strings *)

Lemma append_empty (s : string) : (s ++ EmptyString)%string = s.
Proof. induction s as [| c s IH]; simpl; [reflexivity | now rewrite IH]. Qed.

Lemma lower_app (a b : string) :
  PyStr.lower (a ++ b)%string = (PyStr.lower a ++ PyStr.lower b)%string.
Proof. induction a as [| c a IH]; simpl; [reflexivity | now rewrite IH]. Qed.

Lemma startswith_app (p b : string) : PyStr.startswith p (p ++ b)%string = true.
Proof.
  induction p as [| c p IH]; simpl; [reflexivity |].
  now rewrite Ascii.eqb_refl, IH.
Qed.

Lemma contains_here (p s : string) :
  PyStr.startswith p s = true -> PyStr.contains p s = true.
Proof. intro Hp. destruct s; simpl in *; now rewrite Hp. Qed.

Lemma contains_later (p : string) (c : ascii) (s : string) :
  PyStr.contains p s = true -> PyStr.contains p (String c s) = true.
Proof. intro Hp. cbn [PyStr.contains]. rewrite Hp. apply orb_true_r. Qed.

(** A string contains each of its substrings. *)
Lemma contains_app (p a b : string) :
  PyStr.contains p (a ++ p ++ b)%string = true.
Proof.
  induction a as [| c a IH].
  - simpl String.append. apply contains_here, startswith_app.
  - simpl String.append. now apply contains_later.
Qed.

Lemma basename_no_slash (x : string) :
  PyStr.contains "/" x = false -> PyStr.basename x = x.
Proof.
  destruct x as [| c x]; [reflexivity |].
  cbn [PyStr.contains PyStr.startswith PyStr.basename].
  destruct (Ascii.eqb "/" c) eqn:Hc.
  - discriminate.
  - rewrite Ascii.eqb_sym, Hc. cbn [andb orb]. now intros ->.
Qed.

(** [basename] drops everything up to the last slash. *)
Lemma basename_after_slash (parent x : string) :
  PyStr.contains "/" x = false ->
  PyStr.basename (parent ++ "/" ++ x)%string = x.
Proof.
  intro Hx. induction parent as [| c parent IH].
  - simpl. now apply basename_no_slash.
  - pose proof (contains_app "/" parent x) as Hslash.
    simpl String.append in *. cbn [PyStr.basename].
    rewrite Hslash, IH.
    now destruct (Ascii.eqb c "/").
Qed.

(** ** The effect monad *)

Lemma bind_ret {A B} (a : A) (k : A -> M B) : bind (ret a) k = k a.
Proof. unfold ret, bind. destruct (k a); reflexivity. Qed.

Lemma outcome_bind {A B} (m : M A) (k : A -> M B) :
  outcome_of (bind m k) =
  match outcome_of m with
  | Ok a => outcome_of (k a)
  | Raise e => Raise e
  end.
Proof.
  destruct m as [log [a | e]]; simpl; [| reflexivity].
  destruct (k a); reflexivity.
Qed.

Lemma log_bind {A B} (m : M A) (k : A -> M B) :
  log_of (bind m k) =
  match outcome_of m with
  | Ok a => (log_of m ++ log_of (k a))%list
  | Raise _ => log_of m
  end.
Proof.
  destruct m as [log [a | e]]; simpl; [| reflexivity].
  destruct (k a); reflexivity.
Qed.

(** ** What the display can do *)

Lemma benign_ret {A} (a : A) : benign (ret a).
Proof. split; [reflexivity | exact I]. Qed.

Lemma benign_print (s : string) : benign (print s).
Proof. split; [reflexivity | exact I]. Qed.

Lemma benign_raise {A} (e : exn) : plain e = true -> benign (@raise A e).
Proof. intro Hp. split; [reflexivity | exact Hp]. Qed.

Lemma benign_bind {A B} (m : M A) (k : A -> M B) :
  benign m -> (forall a, benign (k a)) -> benign (bind m k).
Proof.
  unfold benign. intros [Hlog Hout] Hk.
  rewrite log_bind, outcome_bind.
  destruct (outcome_of m) as [a | e].
  - destruct (Hk a) as [Hlog' Hout'].
    rewrite forallb_app, Hlog, Hlog'. split; [reflexivity | exact Hout'].
  - split; assumption.
Qed.

(** The primitives either return without any event or raise a plain
    error. *)
Ltac benign_prim v :=
  destruct v; split; solve [reflexivity | exact I].

Lemma benign_get d k dflt : benign (get d k dflt).
Proof. benign_prim d. Qed.

Lemma benign_iterate v : benign (iterate v).
Proof. benign_prim v. Qed.

Lemma benign_slice `{Runtime} n v : benign (slice n v).
Proof.
  destruct v; try (split; solve [reflexivity | exact I]).
  unfold slice. destruct slice_is_hashable; split; solve [reflexivity | exact I].
Qed.

Lemma benign_len v : benign (len v).
Proof. benign_prim v. Qed.

Lemma benign_join sep v : benign (join sep v).
Proof.
  destruct v; try (split; solve [reflexivity | exact I]).
  unfold join. destruct (all_str items); split; solve [reflexivity | exact I].
Qed.

Lemma benign_lower v : benign (lower v).
Proof. benign_prim v. Qed.

Lemma benign_strip v : benign (strip v).
Proof. benign_prim v. Qed.

Lemma benign_basename v : benign (os_path_basename v).
Proof. benign_prim v. Qed.

Lemma benign_for_each {A} (xs : list A) (body : A -> M unit) :
  (forall x, benign (body x)) -> benign (for_each xs body).
Proof.
  intro Hbody. induction xs as [| x xs IH]; simpl.
  - apply benign_ret.
  - apply benign_bind; auto.
Qed.

Create HintDb benign discriminated.
#[export] Hint Resolve benign_ret benign_print benign_get benign_iterate
  benign_slice benign_len benign_join benign_lower benign_strip
  benign_basename : benign.

(** Walks a computation built from [bind], conditionals and the
    primitives above. *)
Ltac benign_step :=
  match goal with
  | |- benign (bind _ _) => apply benign_bind; [| intros ]
  | |- benign (for_each _ _) => apply benign_for_each; intros
  | |- benign (raise _) => apply benign_raise; reflexivity
  | |- benign (if ?b then _ else _) => destruct b
  | |- benign (match ?v with _ => _ end) => destruct v
  | |- benign _ => solve [auto with benign]
  end.

Ltac benign_walk := repeat benign_step.

Section DisplayIsBenign.
Context `{Runtime}.

Lemma benign_display_system v : benign (display_system v).
Proof. unfold display_system. benign_walk. Qed.

Lemma benign_display_file_tool verb v : benign (display_file_tool verb v).
Proof. unfold display_file_tool. benign_walk. Qed.

Lemma benign_display_bash v : benign (display_bash v).
Proof. unfold display_bash. benign_walk. Qed.

Lemma benign_display_assistant_item v : benign (display_assistant_item v).
Proof.
  unfold display_assistant_item.
  benign_walk; auto using benign_display_file_tool, benign_display_bash.
Qed.

Lemma benign_display_tool_result v : benign (display_tool_result v).
Proof. unfold display_tool_result. benign_walk. Qed.

Lemma benign_display_user_item v : benign (display_user_item v).
Proof.
  unfold display_user_item. benign_walk; auto using benign_display_tool_result.
Qed.

Lemma benign_display_result v : benign (display_result v).
Proof. unfold display_result. benign_walk. Qed.

Lemma benign_display v : benign (_display_claude_progress v).
Proof.
  unfold _display_claude_progress.
  benign_walk;
    auto using benign_display_system, benign_display_assistant_item,
               benign_display_user_item, benign_display_result.
Qed.

Lemma benign_is_loop_benign {A} (m : M A) : benign m -> loop_benign m.
Proof.
  intros [Hlog Hout]. split; [exact Hlog |].
  destruct (outcome_of m) as [a | e]; [exact I |].
  unfold loop_plain. now rewrite Hout.
Qed.

Lemma loop_benign_bind {A B} (m : M A) (k : A -> M B) :
  loop_benign m -> (forall a, loop_benign (k a)) -> loop_benign (bind m k).
Proof.
  unfold loop_benign. intros [Hlog Hout] Hk.
  rewrite log_bind, outcome_bind.
  destruct (outcome_of m) as [a | e].
  - destruct (Hk a) as [Hlog' Hout'].
    rewrite forallb_app, Hlog, Hlog'. split; [reflexivity | exact Hout'].
  - split; assumption.
Qed.

(** A line that is not JSON is printed or skipped; a line that is JSON
    is displayed; a line that the decoder gives up on raises. In each
    case the loop body only prints and raises nothing that a handler of
    the agent singles out. *)
Lemma benign_handle_output output : loop_benign (handle_output output).
Proof.
  unfold handle_output.
  destruct (PyStr.nonempty output); [| apply benign_is_loop_benign, benign_ret].
  destruct (json_loads (PyStr.strip output)) as [json_obj | | why].
  - pose proof (benign_display json_obj) as [Hlog Hout].
    destruct (_display_claude_progress json_obj) as [log [[] | e]]; simpl in *.
    + split; [exact Hlog | exact I].
    + destruct e; try discriminate Hout; simpl;
        rewrite app_nil_r; (split; [exact Hlog | reflexivity]).
  - simpl. destruct (PyStr.nonempty (PyStr.strip output));
      split; solve [reflexivity | exact I].
  - destruct why; split; reflexivity.
Qed.

Lemma benign_read_loop pending transcript : loop_benign (read_loop pending transcript).
Proof.
  revert transcript. induction pending as [| output rest IH]; intro transcript; simpl.
  - apply benign_is_loop_benign, benign_ret.
  - apply loop_benign_bind; [apply benign_handle_output | intros; apply IH].
Qed.

End DisplayIsBenign.

(** ** Supervision and reconciliation *)

Lemma outcome_emit (ev : event) : outcome_of (emit ev) = Ok tt.
Proof. reflexivity. Qed.

Lemma outcome_print (s : string) : outcome_of (print s) = Ok tt.
Proof. reflexivity. Qed.

Lemma outcome_ret {A} (a : A) : outcome_of (ret a) = Ok a.
Proof. reflexivity. Qed.

Lemma outcome_raise {A} (e : exn) : outcome_of (@raise A e) = Raise e.
Proof. reflexivity. Qed.

Lemma log_emit (ev : event) : log_of (emit ev) = [ev].
Proof. reflexivity. Qed.

Lemma log_print (s : string) : log_of (print s) = [Print s].
Proof. reflexivity. Qed.

Lemma log_ret {A} (a : A) : log_of (ret a) = [].
Proof. reflexivity. Qed.

Lemma log_raise {A} (e : exn) : log_of (@raise A e) = [].
Proof. reflexivity. Qed.

Create Rewrite HintDb trace.
#[export] Hint Rewrite @outcome_bind @outcome_emit @outcome_print @outcome_ret
  @outcome_raise @log_bind @log_emit @log_print @log_ret @log_raise : trace.

#[local] Arguments bind : simpl never.
#[local] Arguments print : simpl never.
#[local] Arguments emit : simpl never.
#[local] Arguments ret : simpl never.
#[local] Arguments raise : simpl never.
#[local] Arguments String.append : simpl never.

Lemma try_except_pass {A} (m : M A) (clauses : list (clause A)) :
  (forall e, outcome_of m = Raise e -> dispatch clauses e = raise e) ->
  try_except m clauses = m.
Proof.
  destruct m as [log [a | e]]; simpl; intro Hpass; [reflexivity |].
  rewrite (Hpass e eq_refl). simpl. now rewrite app_nil_r.
Qed.

Lemma plain_not_timeout e : loop_plain e = true -> is_TimeoutExpired e = false.
Proof. destruct e; cbv; congruence. Qed.

Lemma plain_is_Exception `{Runtime} e : loop_plain e = true -> is_Exception e = true.
Proof. destruct e; cbn; congruence. Qed.

(** When the read loop has ended the child has exited, so the wait
    returns at once, whatever the timeout. *)
Lemma wait_after_loop (p : Process) (t : nat) :
  Popen_wait p (loop_exit_time p) t = ret (returncode p).
Proof.
  unfold Popen_wait, loop_exit_time.
  replace (exit_at p <=? Nat.max (stdout_eof_at p) (exit_at p) + t) with true;
    [reflexivity |].
  symmetry. apply Nat.leb_le. lia.
Qed.

(** Conversely a wait does time out when the child outlives it. *)
Lemma wait_times_out (p : Process) (now t : nat) :
  now + t < exit_at p -> Popen_wait p now t = raise TimeoutExpired.
Proof.
  intro Hlate. unfold Popen_wait.
  replace (exit_at p <=? now + t) with false; [reflexivity |].
  symmetry. apply Nat.leb_gt. exact Hlate.
Qed.

Lemma prints_have_no_kill (log : list event) :
  forallb is_print log = true -> existsb is_kill log = false.
Proof.
  induction log as [| ev log IH]; simpl; [reflexivity |].
  destruct ev; simpl; try discriminate. exact IH.
Qed.

Section Execution.
Context `{Runtime}.
Variables (self : Self) (w : World).

(** The inner [try] never reaches its [except] clause. *)
Lemma supervise_eq (p : Process) :
  supervise self w p =
  bind (read_loop (stdout_lines p) [])
    (fun _ =>
       ([Print (nl ++ PyStr.repeat_char "-" 50);
         Print ("Claude execution completed with return code: "
                ++ PyStr.of_Z (returncode p))],
        Ok (returncode p, stderr_lines_of p))).
Proof.
  unfold supervise. rewrite wait_after_loop.
  rewrite try_except_pass.
  - f_equal.
  - intros e He. rewrite outcome_bind in He.
    pose proof (benign_read_loop (stdout_lines p) []) as [_ Hplain].
    destruct (outcome_of (read_loop (stdout_lines p) [])) as [t | e'].
    + rewrite bind_ret in He. discriminate He.
    + injection He as ->. simpl. now rewrite plain_not_timeout.
Qed.

Lemma supervise_outcome (p : Process) :
  outcome_of (supervise self w p) =
  match outcome_of (read_loop (stdout_lines p) []) with
  | Ok _ => Ok (returncode p, stderr_lines_of p)
  | Raise e => Raise e
  end.
Proof. rewrite supervise_eq, outcome_bind. reflexivity. Qed.

Lemma supervise_benign (p : Process) : loop_benign (supervise self w p).
Proof.
  rewrite supervise_eq. apply loop_benign_bind.
  - apply benign_read_loop.
  - intros _. split; [reflexivity | exact I].
Qed.

Lemma read_output_file_outcome :
  outcome_of (_read_output_file self w) =
  match artifact w with
  | Some text => Ok text
  | None => Raise (ArtifactUnavailable (output_file self))
  end.
Proof.
  unfold _read_output_file. autorewrite with trace.
  destruct (artifact w); reflexivity.
Qed.

Lemma read_output_file_log :
  log_of (_read_output_file self w) = [ReadOutputFile (output_file self)].
Proof.
  unfold _read_output_file. autorewrite with trace.
  destruct (artifact w); reflexivity.
Qed.

Lemma run_outcome (prompt : string) :
  outcome_of (run self w prompt) =
  match spawn w with
  | LaunchFailed what => Raise (OSError what)
  | Started p =>
      match outcome_of (read_loop (stdout_lines p) []) with
      | Ok _ => reconciled self w p
      | Raise e => Raise e
      end
  end.
Proof.
  unfold run. autorewrite with trace.
  destruct (spawn w) as [p | what]; autorewrite with trace; [| reflexivity].
  rewrite supervise_outcome.
  destruct (outcome_of (read_loop (stdout_lines p) [])) as [t | e]; [| reflexivity].
  unfold reconciled. cbn [fst snd].
  destruct (Z.eqb (returncode p) 0); autorewrite with trace.
  - rewrite read_output_file_outcome. destruct (artifact w); reflexivity.
  - reflexivity.
Qed.

(** The body raises a launch error, a plain error of the display, or the
    reader's failure: never a timeout. *)
Lemma run_raises (prompt : string) (e : exn) :
  outcome_of (run self w prompt) = Raise e ->
  is_TimeoutExpired e = false /\ is_Exception e = true.
Proof.
  rewrite run_outcome.
  destruct (spawn w) as [p | what].
  - pose proof (benign_read_loop (stdout_lines p) []) as [_ Hplain].
    destruct (outcome_of (read_loop (stdout_lines p) [])) as [t | e'].
    + unfold reconciled.
      destruct (Z.eqb (returncode p) 0); [| discriminate].
      destruct (artifact w); [discriminate |].
      intro He; injection He as <-. split; reflexivity.
    + intro He; injection He as <-.
      split; [now apply plain_not_timeout | now apply plain_is_Exception].
  - intro He; injection He as <-. split; reflexivity.
Qed.

Lemma run_no_kill (prompt : string) :
  existsb is_kill (log_of (run self w prompt)) = false.
Proof.
  unfold run. autorewrite with trace.
  destruct (spawn w) as [p | what]; autorewrite with trace; [| reflexivity].
  pose proof (supervise_benign p) as [Hlog _].
  apply prints_have_no_kill in Hlog.
  destruct (outcome_of (supervise self w p)) as [[rc err] |];
    rewrite ?existsb_app; cbn [existsb is_kill orb]; [| exact Hlog].
  rewrite Hlog. cbn [fst snd orb].
  destruct (Z.eqb rc 0); autorewrite with trace.
  - rewrite read_output_file_outcome, read_output_file_log.
    destruct (artifact w); reflexivity.
  - reflexivity.
Qed.

Lemma try_outer (m : M AgentResponse) :
  (forall e, outcome_of m = Raise e ->
             is_TimeoutExpired e = false /\ is_Exception e = true) ->
  outcome_of (try_except m (outer_clauses self w)) =
    match outcome_of m with
    | Ok r => Ok r
    | Raise e => Ok (failure e)
    end
  /\ log_of (try_except m (outer_clauses self w)) = log_of m.
Proof.
  destruct m as [log [r | e]]; cbn [outcome_of log_of fst snd]; intro Hraise.
  - split; reflexivity.
  - destruct (Hraise e eq_refl) as [Hto Hex].
    unfold try_except, outer_clauses, dispatch. rewrite Hto, Hex.
    unfold ret. cbn [fst snd]. rewrite app_nil_r. split; reflexivity.
Qed.

(** The outcome of [execute_prompt], path by path. *)
Lemma execute_prompt_outcome (prompt : string) :
  outcome_of (execute_prompt self w prompt) =
  if String.eqb (PyStr.lower (approval w)) "y" then
    match outcome_of (run self w prompt) with
    | Ok r => Ok r
    | Raise e => Ok (failure e)
    end
  else Ok cancelled.
Proof.
  unfold execute_prompt. autorewrite with trace.
  destruct (String.eqb (PyStr.lower (approval w)) "y"); cbn [negb];
    [| reflexivity].
  apply try_outer, run_raises.
Qed.

Lemma execute_prompt_log (prompt : string) :
  log_of (execute_prompt self w prompt) =
  (gate_log ++ if String.eqb (PyStr.lower (approval w)) "y"
               then log_of (run self w prompt) else [])%list.
Proof.
  unfold execute_prompt. autorewrite with trace.
  destruct (String.eqb (PyStr.lower (approval w)) "y"); cbn [negb].
  - destruct (try_outer (run self w prompt) (run_raises prompt)) as [_ ->].
    reflexivity.
  - reflexivity.
Qed.

(** [execute_prompt] always returns a response ... *)
Lemma execute_prompt_returns (prompt : string) :
  exists r, outcome_of (execute_prompt self w prompt) = Ok r.
Proof.
  rewrite execute_prompt_outcome.
  destruct (String.eqb (PyStr.lower (approval w)) "y"); [| eauto].
  destruct (outcome_of (run self w prompt)); eauto.
Qed.

(** ... and the response is the one of the path taken. *)
Lemma execute_prompt_path (prompt : string) (r : AgentResponse) :
  outcome_of (execute_prompt self w prompt) = Ok r -> path self w r.
Proof.
  rewrite execute_prompt_outcome, run_outcome.
  destruct (String.eqb (PyStr.lower (approval w)) "y") eqn:Hy.
  - apply String.eqb_eq in Hy.
    destruct (spawn w) as [p | what] eqn:Hspawn.
    + pose proof (benign_read_loop (stdout_lines p) []) as [_ Hplain].
      destruct (outcome_of (read_loop (stdout_lines p) [])) as [t | e] eqn:Hloop.
      * unfold reconciled.
        destruct (Z.eqb (returncode p) 0) eqn:Hrc.
        -- apply Z.eqb_eq in Hrc.
           destruct (artifact w) as [text |] eqn:Hart;
             intro Hr; injection Hr as <-; eauto using @path.
        -- apply Z.eqb_neq in Hrc.
           intro Hr; injection Hr as <-; eauto using @path.
      * intro Hr; injection Hr as <-; eauto using @path.
    + intro Hr; injection Hr as <-; eauto using @path.
  - apply String.eqb_neq in Hy.
    intro Hr; injection Hr as <-. now constructor.
Qed.

End Execution.

(** ** Timeout (C1) *)

(** The handler of the inner [try] kills the child before it raises. *)
Lemma timeout_handler_kills_then_raises (self : Self) (w : World) :
  dispatch (supervise_clauses self w) TimeoutExpired =
  ([Kill],
   Raise (AgentTimeoutException (agent_name self) (agent_timeout_seconds w)
            "Claude command execution timed out")).
Proof. reflexivity. Qed.

(** An [AgentTimeoutException] raised inside the outer [try] is not handled
    by the [TimeoutExpired] clause but by the catch-all one, which turns
    it into an ordinary failed response. *)
Lemma raised_timeout_is_folded `{Runtime} (self : Self) (w : World)
    (log : list event) (name : string) (t : nat) (msg : string) :
  agent_timeout_is_exception = true ->
  try_except (log, Raise (AgentTimeoutException name t msg)) (outer_clauses self w)
  = (log, Ok (failure (AgentTimeoutException name t msg))).
Proof.
  intro Hsub. unfold try_except, outer_clauses, dispatch.
  cbn [is_TimeoutExpired is_Exception]. rewrite Hsub.
  unfold ret. now rewrite app_nil_r.
Qed.

(** A child that is still running 100 seconds after the 600 second
    timeout: the call returns the ordinary success response. *)
Example late_child_is_not_timed_out :
  agent_timeout_seconds Demo.late_world = 600
  /\ spawn Demo.late_world = Started Demo.late_child
  /\ exit_at Demo.late_child = 700
  /\ outcome_of (@execute_prompt Demo.demo_runtime Demo.demo_self Demo.late_world
                   "fix the bug")
     = Ok (mkResponse "done" true None).
Proof. repeat split; vm_compute; reflexivity. Qed.

(** C1. The claim: when the child does not exit within the configured
    timeout, [execute_prompt] raises [AgentTimeoutException] after killing
    the child. What the code does: for every world, whatever the exit time
    of the child and the timeout, the call ends by returning a response,
    and the child is never killed. The read loop only breaks once
    [poll()] has reported the exit, so the wait that follows cannot time
    out. *)
Theorem execute_prompt_never_signals_timeout `{Runtime}
    (self : Self) (w : World) (prompt : string) :
  (exists r, outcome_of (execute_prompt self w prompt) = Ok r)
  /\ existsb is_kill (log_of (execute_prompt self w prompt)) = false.
Proof.
  split; [apply execute_prompt_returns |].
  rewrite execute_prompt_log, existsb_app.
  destruct (String.eqb (PyStr.lower (approval w)) "y"); cbn [orb existsb gate_log is_kill].
  - apply run_no_kill.
  - reflexivity.
Qed.

(** ** The outcome invariant (C3) *)

(** C3, as stated, fails: a declined confirmation returns a failed
    response whose content is not empty. *)
Lemma declined_response_has_content :
  ~ (forall (R : Runtime) (self : Self) (w : World) (prompt : string) (r : AgentResponse),
        outcome_of (execute_prompt self w prompt) = Ok r ->
        (success r = true ->
           error_message r = None /\ artifact w = Some (content r))
        /\ (success r = false -> content r = EmptyString)).
Proof.
  intro Hclaim.
  destruct (Hclaim Demo.demo_runtime Demo.demo_self
              (Demo.world "n" Demo.late_child None) "fix the bug" cancelled
              eq_refl) as [_ Hempty].
  specialize (Hempty eq_refl). discriminate Hempty.
Qed.

(** C3, amended. For every response that [execute_prompt] returns: when it
    succeeded the error message is absent and the content is the text of
    the result artifact; when it failed the content is empty, unless the
    operator declined, in which case the response is the cancellation
    one, with content "Operation cancelled by user". *)
Theorem outcome_invariant `{Runtime}
    (self : Self) (w : World) (prompt : string) (r : AgentResponse) :
  outcome_of (execute_prompt self w prompt) = Ok r ->
  (success r = true ->
     error_message r = None /\ artifact w = Some (content r))
  /\ (success r = false ->
        content r = EmptyString
        \/ (PyStr.lower (approval w) <> "y"
            /\ r = cancelled
            /\ content r = "Operation cancelled by user")).
Proof.
  intro Hr. apply execute_prompt_path in Hr.
  destruct Hr; cbn [success content error_message failure cancelled];
    split; intro Hs; try discriminate Hs; auto.
Qed.

Lemma outcome_invariant_witness :
  (success cancelled = false ->
     content cancelled = EmptyString
     \/ (PyStr.lower "n" <> "y"
         /\ cancelled = cancelled
         /\ content cancelled = "Operation cancelled by user"))
  /\ (success (mkResponse "done" true None) = true ->
        error_message (mkResponse "done" true None) = None
        /\ Some "done" = Some (content (mkResponse "done" true None))).
Proof.
  split.
  - apply (@outcome_invariant Demo.demo_runtime Demo.demo_self
             (Demo.world "n" Demo.late_child None) "fix the bug" cancelled).
    reflexivity.
  - apply (@outcome_invariant Demo.demo_runtime Demo.demo_self
             Demo.late_world "fix the bug" (mkResponse "done" true None)).
    vm_compute. reflexivity.
Defined.

(** ** Reconciliation (C4, C6, C8) *)

Lemma nonempty_true (s : string) : PyStr.nonempty s = true <-> s <> EmptyString.
Proof. destruct s; simpl; split; congruence. Qed.

Lemma str_or_nonempty (a b : string) : b <> EmptyString -> str_or a b <> EmptyString.
Proof.
  intro Hb. unfold str_or. destruct (PyStr.nonempty a) eqn:Ha; [| exact Hb].
  now apply nonempty_true.
Qed.

(** The message of the non-zero branch: standard error when there is
    some, the generic message otherwise. *)
Lemma error_msg_of_eq (p : Process) :
  error_msg_of p =
  if PyStr.nonempty (stderr_text p) then stderr_text p
  else ("Command failed with return code " ++ PyStr.of_Z (returncode p))%string.
Proof.
  unfold error_msg_of, stderr_lines_of, str_or.
  destruct (PyStr.nonempty (stderr_text p)) eqn:Herr; cbn [PyStr.join].
  - now rewrite Herr.
  - reflexivity.
Qed.

Lemma failure_message_nonempty `{Runtime} (e : exn) :
  exists msg, error_message (failure e) = Some msg /\ msg <> EmptyString.
Proof. eexists; split; [reflexivity | discriminate]. Qed.

(** C4. When the child exits with code 0 and the result artifact cannot
    be read, [execute_prompt] returns a failed response with a message
    that is not empty. (The reader is the spec's: it fails with
    ArtifactUnavailable.) *)
Theorem unreadable_artifact_is_failure `{Runtime}
    (self : Self) (w : World) (prompt : string) (p : Process) :
  PyStr.lower (approval w) = "y" ->
  spawn w = Started p ->
  returncode p = 0%Z ->
  artifact w = None ->
  exists msg,
    outcome_of (execute_prompt self w prompt)
    = Ok (mkResponse EmptyString false (Some msg))
    /\ msg <> EmptyString
    /\ (forall transcript,
          outcome_of (read_loop (stdout_lines p) []) = Ok transcript ->
          msg = ("Failed to execute Claude command: "
                 ++ str_exn (ArtifactUnavailable (output_file self)))%string).
Proof.
  intros Hy Hspawn Hrc Hart.
  rewrite execute_prompt_outcome, run_outcome, Hy, Hspawn.
  unfold reconciled. rewrite Hrc, Hart. cbn [String.eqb Ascii.eqb Bool.eqb Z.eqb].
  destruct (outcome_of (read_loop (stdout_lines p) [])) as [t | e].
  - eexists. split; [reflexivity |]. split; [discriminate | reflexivity].
  - eexists. split; [reflexivity |]. split; [discriminate | discriminate].
Qed.

Lemma unreadable_artifact_is_failure_witness :
  exists msg,
    outcome_of (@execute_prompt Demo.demo_runtime Demo.demo_self
                  (Demo.world "Y" Demo.late_child None) "fix the bug")
    = Ok (mkResponse EmptyString false (Some msg))
    /\ msg <> EmptyString
    /\ (forall transcript,
          outcome_of (@read_loop Demo.demo_runtime (stdout_lines Demo.late_child) [])
          = Ok transcript ->
          msg = ("Failed to execute Claude command: "
                 ++ @str_exn Demo.demo_runtime
                      (ArtifactUnavailable (output_file Demo.demo_self)))%string).
Proof.
  apply (@unreadable_artifact_is_failure Demo.demo_runtime Demo.demo_self
           (Demo.world "Y" Demo.late_child None) "fix the bug" Demo.late_child);
    reflexivity.
Defined.

(** When the stream has been consumed and the child exits with a non-zero
    code N, [execute_prompt] returns a failed response with empty content
    whose message is the text of standard error, or "Command failed with
    return code N" when standard error is empty. *)
Theorem nonzero_exit_reports_stderr `{Runtime}
    (self : Self) (w : World) (prompt : string) (p : Process)
    (transcript : list string) :
  PyStr.lower (approval w) = "y" ->
  spawn w = Started p ->
  outcome_of (read_loop (stdout_lines p) []) = Ok transcript ->
  returncode p <> 0%Z ->
  outcome_of (execute_prompt self w prompt)
  = Ok (mkResponse EmptyString false
          (Some (if PyStr.nonempty (stderr_text p) then stderr_text p
                 else ("Command failed with return code "
                       ++ PyStr.of_Z (returncode p))%string))).
Proof.
  intros Hy Hspawn Hloop Hrc.
  rewrite execute_prompt_outcome, run_outcome, Hy, Hspawn, Hloop.
  unfold reconciled. apply Z.eqb_neq in Hrc. rewrite Hrc, error_msg_of_eq.
  reflexivity.
Qed.

(** Exit code 1 and "permission denied" on standard error, after a
    stream that was consumed. *)
Lemma nonzero_exit_reports_stderr_witness :
  outcome_of (@execute_prompt Demo.demo_runtime Demo.demo_self
                (Demo.world "y" (Demo.child [Demo.line "working"] 3 1 "permission denied")
                   None)
                "fix the bug")
  = Ok (mkResponse EmptyString false (Some "permission denied")).
Proof.
  apply (@nonzero_exit_reports_stderr Demo.demo_runtime Demo.demo_self
           (Demo.world "y" (Demo.child [Demo.line "working"] 3 1 "permission denied") None)
           "fix the bug"
           (Demo.child [Demo.line "working"] 3 1 "permission denied")
           ["working"]).
  - reflexivity.
  - reflexivity.
  - vm_compute. reflexivity.
  - simpl. lia.
Defined.

(** C6. The claim: whenever the child exits with a non-zero code, the
    message of the failed response is the text of standard error (or the
    generic message). What the code does: when a line of the output makes
    the read loop raise, as in C2, the exit code and standard error are
    never looked at, and the response is the catch-all failure for that
    exception, whatever the exit code and whatever standard error holds. *)
Theorem stderr_is_lost_when_stream_breaks `{Runtime}
    (self : Self) (w : World) (prompt : string) (p : Process) (e : exn) :
  PyStr.lower (approval w) = "y" ->
  spawn w = Started p ->
  outcome_of (read_loop (stdout_lines p) []) = Raise e ->
  outcome_of (execute_prompt self w prompt)
  = Ok (mkResponse EmptyString false
          (Some ("Failed to execute Claude command: " ++ str_exn e))).
Proof.
  intros Hy Hspawn Hloop.
  rewrite execute_prompt_outcome, run_outcome, Hy, Hspawn, Hloop.
  reflexivity.
Qed.

(** The failing input: the child prints 123, writes "permission denied"
    to standard error and exits with code 1. *)
Lemma stderr_is_lost_when_stream_breaks_witness :
  outcome_of (@execute_prompt Demo.demo_runtime Demo.demo_self
                (Demo.world "y" (Demo.child [Demo.line "123"] 3 1 "permission denied")
                   None)
                "fix the bug")
  = Ok (mkResponse EmptyString false
          (Some "Failed to execute Claude command: 'int' object has no attribute 'get'")).
Proof.
  apply (@stderr_is_lost_when_stream_breaks Demo.demo_runtime Demo.demo_self
           (Demo.world "y" (Demo.child [Demo.line "123"] 3 1 "permission denied") None)
           "fix the bug"
           (Demo.child [Demo.line "123"] 3 1 "permission denied")
           (AttributeError "int" "get")).
  - reflexivity.
  - reflexivity.
  - vm_compute. reflexivity.
Defined.

(** Without standard error the message names the exit code. *)
Example silent_failure_names_the_code :
  outcome_of (@execute_prompt Demo.demo_runtime Demo.demo_self
                (Demo.world "y" (Demo.child [] 3 (-9) EmptyString) None) "fix the bug")
  = Ok (mkResponse EmptyString false (Some "Command failed with return code -9")).
Proof. vm_compute. reflexivity. Qed.

(** C8. Every failed response that [execute_prompt] returns carries a
    message, and the message is not empty: on decline, on a launch
    failure or any other exception, on an unreadable artifact, and on a
    non-zero exit code. *)
Theorem failed_response_has_message `{Runtime}
    (self : Self) (w : World) (prompt : string) (r : AgentResponse) :
  outcome_of (execute_prompt self w prompt) = Ok r ->
  success r = false ->
  exists msg, error_message r = Some msg /\ msg <> EmptyString.
Proof.
  intros Hr Hfail. apply execute_prompt_path in Hr.
  destruct Hr; try apply failure_message_nonempty.
  - eexists; split; [reflexivity | discriminate].
  - discriminate Hfail.
  - eexists; split; [reflexivity |].
    unfold error_msg_of. apply str_or_nonempty. discriminate.
Qed.

Lemma failed_response_has_message_witness :
  exists msg,
    error_message (mkResponse EmptyString false (Some "permission denied")) = Some msg
    /\ msg <> EmptyString.
Proof.
  apply (@failed_response_has_message Demo.demo_runtime Demo.demo_self
           (Demo.world "y" (Demo.child [Demo.line "working"] 3 1 "permission denied") None)
           "fix the bug").
  - vm_compute. reflexivity.
  - reflexivity.
Defined.

(** ** Lines of output (C2) *)

Section Lines.
Context `{Runtime}.

(** A line that is not JSON never breaks the loop: it is echoed when it
    is not blank. *)
Lemma handle_output_not_json (output : string) :
  json_loads (PyStr.strip output) = NotJSON ->
  handle_output output =
  (if PyStr.nonempty output && PyStr.nonempty (PyStr.strip output)
   then [Print ("[Output]: " ++ PyStr.strip output)] else [],
   Ok tt).
Proof.
  intro Hjson. unfold handle_output. rewrite Hjson.
  destruct (PyStr.nonempty output); [| reflexivity].
  destruct (PyStr.nonempty (PyStr.strip output)); reflexivity.
Qed.

(** A line that decodes to anything but an object makes the display
    raise, and the [except json.JSONDecodeError] clause lets it through. *)
Lemma handle_output_non_object (output : string) (v : value) :
  output <> EmptyString ->
  json_loads (PyStr.strip output) = Decoded v ->
  is_dict v = false ->
  handle_output output = ([], Raise (AttributeError (type_name v) "get")).
Proof.
  intros Hne Hjson Hv. unfold handle_output.
  apply nonempty_true in Hne. rewrite Hne, Hjson.
  destruct v; try discriminate Hv; reflexivity.
Qed.

Lemma read_loop_cons (output : string) (rest transcript : list string) :
  read_loop (output :: rest) transcript =
  bind (handle_output output) (fun _ =>
    read_loop rest
      (if PyStr.nonempty output then (transcript ++ [PyStr.strip output])%list
       else transcript)).
Proof. reflexivity. Qed.

(** Once a line raises, the lines after it are not read. *)
Lemma read_loop_breaks (before after : list string) (output : string) (e : exn) :
  Forall (fun o => outcome_of (handle_output o) = Ok tt) before ->
  handle_output output = ([], Raise e) ->
  forall transcript,
    outcome_of (read_loop (before ++ output :: after) transcript) = Raise e
    /\ log_of (read_loop (before ++ output :: after) transcript)
       = log_of (read_loop before transcript).
Proof.
  intros Hbefore Hraise.
  induction Hbefore as [| o before Ho _ IH]; intro transcript.
  - cbn [app]. rewrite read_loop_cons, Hraise. split; reflexivity.
  - cbn [app]. rewrite !read_loop_cons.
    autorewrite with trace. rewrite Ho.
    destruct (IH (if PyStr.nonempty o then (transcript ++ [PyStr.strip o])%list
                  else transcript)) as [-> ->].
    split; reflexivity.
Qed.

End Lines.

(** C2. The claim: no line of output makes classification raise or
    aborts the read loop. What the code does: a line that is valid JSON
    but not an object (a number, a string, a list, null) makes
    [_display_claude_progress] raise [AttributeError]; the loop is left,
    the remaining lines are not read, and [execute_prompt] returns the
    catch-all failure. *)
Theorem non_object_line_aborts_execute `{Runtime}
    (self : Self) (w : World) (prompt : string) (p : Process)
    (before after : list string) (output : string) (v : value) :
  PyStr.lower (approval w) = "y" ->
  spawn w = Started p ->
  stdout_lines p = (before ++ output :: after)%list ->
  Forall (fun o => outcome_of (handle_output o) = Ok tt) before ->
  output <> EmptyString ->
  json_loads (PyStr.strip output) = Decoded v ->
  is_dict v = false ->
  outcome_of (handle_output output) = Raise (AttributeError (type_name v) "get")
  /\ log_of (read_loop (stdout_lines p) []) = log_of (read_loop before [])
  /\ outcome_of (execute_prompt self w prompt)
     = Ok (failure (AttributeError (type_name v) "get")).
Proof.
  intros Hy Hspawn Hlines Hbefore Hne Hjson Hv.
  pose proof (handle_output_non_object output v Hne Hjson Hv) as Hraise.
  destruct (read_loop_breaks before after output _ Hbefore Hraise []) as [Hout Hlog].
  split; [now rewrite Hraise |].
  split; [now rewrite Hlines |].
  rewrite execute_prompt_outcome, run_outcome, Hy, Hspawn, Hlines, Hout.
  reflexivity.
Qed.

(** The child prints a line of text, then the number 123, then a third
    line. *)
Lemma non_object_line_aborts_execute_witness :
  outcome_of (@handle_output Demo.demo_runtime (Demo.line "123"))
  = Raise (AttributeError "int" "get")
  /\ log_of (@read_loop Demo.demo_runtime
               [Demo.line "working"; Demo.line "123"; Demo.line "done"] [])
     = [Print "[Output]: working"]
  /\ outcome_of (@execute_prompt Demo.demo_runtime Demo.demo_self
                   (Demo.world "y"
                      (Demo.child [Demo.line "working"; Demo.line "123"; Demo.line "done"]
                         3 0 EmptyString)
                      (Some "done"))
                   "fix the bug")
     = Ok (mkResponse EmptyString false
             (Some "Failed to execute Claude command: 'int' object has no attribute 'get'")).
Proof.
  apply (@non_object_line_aborts_execute Demo.demo_runtime Demo.demo_self
           (Demo.world "y"
              (Demo.child [Demo.line "working"; Demo.line "123"; Demo.line "done"]
                 3 0 EmptyString)
              (Some "done"))
           "fix the bug"
           (Demo.child [Demo.line "working"; Demo.line "123"; Demo.line "done"]
              3 0 EmptyString)
           [Demo.line "working"] [Demo.line "done"] (Demo.line "123") (VInt 123)).
  - reflexivity.
  - reflexivity.
  - reflexivity.
  - repeat constructor.
  - discriminate.
  - reflexivity.
  - reflexivity.
Defined.

(** ** Slices *)

Lemma take_all (n : nat) (s : string) : PyStr.len s <= n -> PyStr.take n s = s.
Proof.
  revert n. induction s as [| c s IH]; intros [| n] Hlen; simpl in *;
    try reflexivity; try lia.
  f_equal. apply IH. lia.
Qed.

Lemma take_length (n : nat) (s : string) :
  n <= PyStr.len s -> PyStr.len (PyStr.take n s) = n.
Proof.
  revert n. induction s as [| c s IH]; intros [| n] Hlen; simpl in *;
    try reflexivity; try lia.
  f_equal. apply IH. lia.
Qed.

Lemma startswith_take (n : nat) (s : string) :
  PyStr.startswith (PyStr.take n s) s = true.
Proof.
  revert n. induction s as [| c s IH]; intros [| n]; simpl; try reflexivity.
  now rewrite Ascii.eqb_refl, IH.
Qed.

(** ** Tool results (C5) *)

(** The rendering that C5 states for the failure branch (the indicator
    only when the text is longer than 100 characters) is not the one of
    the code: a short text containing "failed" is printed with the
    indicator although nothing was cut. *)
Lemma short_failure_text_is_marked :
  ~ (forall (R : Runtime) (text : string),
        PyStr.contains "successfully" (PyStr.lower text) = false ->
        PyStr.contains "error" (PyStr.lower text)
        || PyStr.contains "failed" (PyStr.lower text) = true ->
        display_tool_result (VStr text)
        = print ("   Error: " ++ PyStr.take 100 text
                 ++ ellipsis_if_longer 100 (PyStr.len text))).
Proof.
  intro Hclaim.
  specialize (Hclaim Demo.demo_runtime "Build failed" eq_refl eq_refl).
  vm_compute in Hclaim. discriminate Hclaim.
Qed.

(** C5. The claim: the truncation indicator is appended exactly when the
    text is longer than 100 characters. What the code does, for every
    text of a tool result: with "successfully" (case-insensitively) it
    prints the success marker alone; otherwise with "error" or "failed" it
    prints the failure marker, the first 100 characters and then "..."
    always (line 100), also when the text is short and was printed whole;
    otherwise it prints the first 100 characters and "..." exactly when
    the text is longer than 100 characters (line 102). *)
Theorem tool_result_rendering `{Runtime} (text : string) :
  let low := PyStr.lower text in
  let head := PyStr.take 100 text in
  display_tool_result (VStr text)
  = print (if PyStr.contains "successfully" low then "   Success"
           else if PyStr.contains "error" low || PyStr.contains "failed" low
                then "   Error: " ++ head ++ "..."
                else "   " ++ head
                     ++ if 100 <? PyStr.len text then "..." else EmptyString)
  /\ (PyStr.len text <= 100 -> head = text).
Proof.
  intros low head. split; [| apply take_all].
  unfold display_tool_result.
  cbn [lower slice len]. rewrite ?bind_ret. fold low.
  destruct (PyStr.contains "successfully" low); [reflexivity |].
  destruct (PyStr.contains "error" low || PyStr.contains "failed" low);
    rewrite ?bind_ret; reflexivity.
Qed.

(** The failing input: twelve characters, printed whole, and marked as
    truncated. *)
Lemma tool_result_rendering_witness :
  @display_tool_result Demo.demo_runtime (VStr "Build failed")
  = print "   Error: Build failed..."
  /\ PyStr.len "Build failed" <= 100.
Proof.
  split.
  - apply (proj1 (@tool_result_rendering Demo.demo_runtime "Build failed")).
  - vm_compute. lia.
Defined.

(** ** Shell commands (C7) *)

(** C7. For a [tool_use] item naming the Bash tool with a command string:
    after the line that names the tool, the summary line shows the first
    50 characters of the command followed by "..." when the command is
    longer than 50 characters, and the whole command with no marker when
    it has 50 characters or fewer (an empty command has nothing to show
    and prints no summary line). *)
Theorem bash_command_summary `{Runtime}
    (item input : list (string * value)) (command : string) :
  lookup "type" item = Some (VStr "tool_use") ->
  lookup "name" item = Some (VStr "Bash") ->
  lookup "input" item = Some (VDict input) ->
  lookup "command" input = Some (VStr command) ->
  display_assistant_item (VDict item)
  = ((Print (nl ++ "Using tool: Bash")
      :: if PyStr.nonempty command
         then [Print ("   Running: "
                      ++ if 50 <? PyStr.len command
                         then PyStr.take 50 command ++ "..."
                         else command)]
         else [])%list,
     Ok tt)
  /\ (50 < PyStr.len command ->
        PyStr.len (PyStr.take 50 command) = 50
        /\ PyStr.startswith (PyStr.take 50 command) command = true).
Proof.
  intros Hty Hname Hinput Hcommand. split.
  - unfold display_assistant_item, display_bash.
    cbn [get]. rewrite Hty, Hname, Hinput. rewrite ?bind_ret.
    cbn [eq_str String.eqb Ascii.eqb Bool.eqb andb].
    rewrite ?bind_ret.
    cbn [eq_str String.eqb Ascii.eqb Bool.eqb andb fmt get].
    rewrite Hcommand, ?bind_ret. cbn [truthy].
    destruct (PyStr.nonempty command); [| reflexivity].
    cbn [slice len fmt]. rewrite ?bind_ret. unfold ellipsis_if_longer.
    destruct (50 <? PyStr.len command) eqn:Hlong.
    + reflexivity.
    + apply Nat.ltb_ge in Hlong. rewrite (take_all 50 command Hlong).
      rewrite append_empty. reflexivity.
  - intro Hlong. split.
    + apply take_length. lia.
    + apply startswith_take.
Qed.

Lemma bash_command_summary_witness :
  @display_assistant_item Demo.demo_runtime (VDict (Demo.bash_item Demo.long_command))
  = ([Print (nl ++ "Using tool: Bash");
      Print "   Running: find . -name '*.py' -exec grep -n 'TODO' {} + | so..."],
     Ok tt).
Proof.
  apply (proj1 (@bash_command_summary Demo.demo_runtime
                  (Demo.bash_item Demo.long_command)
                  [("command", VStr Demo.long_command)] Demo.long_command
                  eq_refl eq_refl eq_refl eq_refl)).
Defined.

(** A short command is shown whole; an empty one is not shown. *)
Example short_command_is_shown_whole :
  @display_assistant_item Demo.demo_runtime (VDict (Demo.bash_item "ls -la"))
  = ([Print (nl ++ "Using tool: Bash"); Print "   Running: ls -la"], Ok tt)
  /\ @display_assistant_item Demo.demo_runtime (VDict (Demo.bash_item EmptyString))
     = ([Print (nl ++ "Using tool: Bash")], Ok tt).
Proof. split; vm_compute; reflexivity. Qed.

(** ** The confirmation gate (C9) *)

Lemma lower_char_is_y (c : ascii) :
  PyStr.lower_char c = "y"%char <-> c = "y"%char \/ c = "Y"%char.
Proof.
  split.
  - destruct c as [[] [] [] [] [] [] [] []]; vm_compute; intro Hc;
      solve [discriminate Hc | now left | now right].
  - intros [-> | ->]; reflexivity.
Qed.

(** Only "y" and "Y" lower to "y". *)
Lemma lower_is_y (s : string) :
  PyStr.lower s = "y" <-> s = "y" \/ s = "Y".
Proof.
  split.
  - destruct s as [| c [| c' s]]; simpl; intro Hs; try discriminate Hs.
    injection Hs as Hc. apply lower_char_is_y in Hc.
    destruct Hc as [-> | ->]; auto.
  - intros [-> | ->]; reflexivity.
Qed.

(** C9. A subprocess is spawned exactly when the operator's answer,
    lowercased, is "y", that is when the answer is "y" or "Y"; for every
    other answer, "yes" and the empty line included, the call ends after
    the prompt with the cancellation response. *)
Theorem gate_approves_only_y `{Runtime} (self : Self) (w : World) (prompt : string) :
  existsb is_popen (log_of (execute_prompt self w prompt))
  = String.eqb (PyStr.lower (approval w)) "y"
  /\ (String.eqb (PyStr.lower (approval w)) "y" = true
      <-> approval w = "y" \/ approval w = "Y")
  /\ (if String.eqb (PyStr.lower (approval w)) "y" then True
      else execute_prompt self w prompt = (gate_log, Ok cancelled)
           /\ success cancelled = false
           /\ error_message cancelled
              = Some "User did not approve execution with dangerous permissions")
  /\ String.eqb (PyStr.lower "yes") "y" = false
  /\ String.eqb (PyStr.lower EmptyString) "y" = false.
Proof.
  split; [| split; [| split; [| split; reflexivity]]].
  - rewrite execute_prompt_log, existsb_app.
    destruct (String.eqb (PyStr.lower (approval w)) "y"); [| reflexivity].
    unfold run. autorewrite with trace. cbn [existsb gate_log is_popen orb].
    rewrite !existsb_app. cbn [existsb is_popen orb].
    reflexivity.
  - rewrite String.eqb_eq. apply lower_is_y.
  - unfold execute_prompt.
    destruct (String.eqb (PyStr.lower (approval w)) "y"); [exact I |].
    split; [reflexivity | split; reflexivity].
Qed.

(** ** The project directory check (C10) *)

Lemma project_check_outcome (self : Self) (w : World) :
  outcome_of (is_ide_open_with_correct_project self w)
  = Ok (match _current_project_name self with
        | Some name =>
            PyStr.nonempty name
            && PyStr.contains (PyStr.lower name)
                 (PyStr.lower (PyStr.basename (getcwd w)))
        | None => false
        end).
Proof.
  unfold is_ide_open_with_correct_project.
  destruct (_current_project_name self) as [[| c name] |];
    autorewrite with trace; try reflexivity.
  cbn [PyStr.nonempty andb].
  destruct (PyStr.contains (PyStr.lower (String c name))
              (PyStr.lower (PyStr.basename (getcwd w))));
    autorewrite with trace; reflexivity.
Qed.

(** C10. [is_ide_open_with_correct_project] returns a boolean; it is true
    exactly when a project name is set (not None, not empty) and the
    lowercased name occurs in the lowercased base name of the working
    directory. So it is false when no name is set, and true for every
    directory whose name has the project name somewhere inside it. *)
Theorem project_check_is_containment (self : Self) (w : World) :
  exists b : bool,
    outcome_of (is_ide_open_with_correct_project self w) = Ok b
    /\ (b = true <->
        exists name,
          _current_project_name self = Some name
          /\ name <> EmptyString
          /\ PyStr.contains (PyStr.lower name)
               (PyStr.lower (PyStr.basename (getcwd w))) = true)
    /\ (project_name_set self = false -> b = false)
    /\ (forall name parent pre post : string,
          _current_project_name self = Some name ->
          name <> EmptyString ->
          PyStr.contains "/" (pre ++ name ++ post)%string = false ->
          getcwd w = (parent ++ "/" ++ pre ++ name ++ post)%string ->
          b = true).
Proof.
  eexists. split; [apply project_check_outcome |].
  unfold project_name_set.
  destruct (_current_project_name self) as [name |].
  - split; [| split].
    + rewrite andb_true_iff, nonempty_true. split.
      * intros [Hname Hin]. exists name. auto.
      * intros [name' [Heq [Hname Hin]]]. injection Heq as <-. auto.
    + intros ->. reflexivity.
    + intros name' parent pre post Heq Hname Hslash Hcwd.
      injection Heq as <-. rewrite Hcwd.
      rewrite (basename_after_slash parent _ Hslash), !lower_app.
      rewrite contains_app, andb_true_r. now apply nonempty_true.
  - split; [| split].
    + split; [discriminate |]. intros [name [Heq _]]. discriminate Heq.
    + reflexivity.
    + intros name parent pre post Heq. discriminate Heq.
Qed.

(** The project "shop" is accepted in a directory named "my-SHOP-v2",
    and nothing is accepted while no project is set. *)
Example project_check_accepts_superstring :
  outcome_of (is_ide_open_with_correct_project Demo.demo_self
                (mkWorld "y" (LaunchFailed "none") 600 None "/work/my-SHOP-v2"))
  = Ok true
  /\ outcome_of (is_ide_open_with_correct_project
                   (mkSelf "claude_code" "output.md" "/work/shop" None)
                   (mkWorld "y" (LaunchFailed "none") 600 None "/work/shop"))
     = Ok false.
Proof. split; vm_compute; reflexivity. Qed.

(** ** Examples of the string functions *)

Example lower_mixed : PyStr.lower "Yes, FAILED" = "yes, failed".
Proof. reflexivity. Qed.

Example strip_line : PyStr.strip (Demo.line "  {}") = "{}".
Proof. reflexivity. Qed.

Example basename_path : PyStr.basename "/home/u/my app/a.py" = "a.py".
Proof. reflexivity. Qed.

Example basename_trailing_slash : PyStr.basename "/home/u/" = EmptyString.
Proof. reflexivity. Qed.

Example of_Z_negative : PyStr.of_Z (-9) = "-9".
Proof. reflexivity. Qed.

Example of_Z_zero : PyStr.of_Z 0 = "0".
Proof. reflexivity. Qed.

(** * Further properties of the execution core *)

Lemma prints_have_no_popen (log : list event) :
  forallb is_print log = true -> filter is_popen log = [].
Proof.
  induction log as [| ev log IH]; simpl; [reflexivity |].
  destruct ev; simpl; try discriminate. exact IH.
Qed.

Lemma prints_have_no_read (log : list event) :
  forallb is_print log = true -> filter is_read log = [].
Proof.
  induction log as [| ev log IH]; simpl; [reflexivity |].
  destruct ev; simpl; try discriminate. exact IH.
Qed.

Section Logs.
Context `{Runtime}.
Variables (self : Self) (w : World).

(** The events of the outer [try] body: the banner and the spawn, then the
    display of the stream, then what the verdict adds. *)
Lemma run_log (prompt : string) :
  log_of (run self w prompt) =
  ([Print ("Executing prompt in " ++ agent_name self ++ " headless mode. Prompt: "
           ++ prompt);
    Print "Streaming Claude's response in real-time...";
    Print (PyStr.repeat_char "-" 50);
    Popen (command_line self prompt) (repo_dir self)]
   ++ match spawn w with
      | LaunchFailed _ => []
      | Started p =>
          log_of (supervise self w p)
          ++ match outcome_of (read_loop (stdout_lines p) []) with
             | Raise _ => []
             | Ok _ =>
                 if Z.eqb (returncode p) 0
                 then [Print ("Reading output from " ++ output_file self ++ "...");
                       ReadOutputFile (output_file self)]
                 else [Print ("ERROR: Claude command failed: " ++ error_msg_of p)]
             end
      end)%list.
Proof.
  unfold run, command_line. autorewrite with trace.
  destruct (spawn w) as [p | what]; autorewrite with trace; [| reflexivity].
  cbn [app]. do 4 f_equal.
  rewrite supervise_outcome.
  destruct (outcome_of (read_loop (stdout_lines p) [])) as [t | e]; [| now rewrite app_nil_r].
  f_equal. cbn [fst snd].
  destruct (Z.eqb (returncode p) 0); autorewrite with trace.
  - rewrite read_output_file_outcome, read_output_file_log.
    destruct (artifact w); reflexivity.
  - reflexivity.
Qed.

End Logs.



(** X2. When the child cannot be started, the call prints its banner,
    attempts the spawn and returns the catch-all failure carrying the text
    of the launch error; nothing is read and nothing else is printed. *)
Theorem launch_failure_is_reported `{Runtime}
    (self : Self) (w : World) (prompt : string) (what : string) :
  PyStr.lower (approval w) = "y" ->
  spawn w = LaunchFailed what ->
  execute_prompt self w prompt =
  ((gate_log
    ++ [Print ("Executing prompt in " ++ agent_name self
               ++ " headless mode. Prompt: " ++ prompt);
        Print "Streaming Claude's response in real-time...";
        Print (PyStr.repeat_char "-" 50);
        Popen (command_line self prompt) (repo_dir self)])%list,
   Ok (mkResponse EmptyString false
         (Some ("Failed to execute Claude command: " ++ str_exn (OSError what))))).
Proof.
  intros Hy Hspawn.
  rewrite (surjective_pairing (execute_prompt self w prompt)).
  change (fst (execute_prompt self w prompt)) with (log_of (execute_prompt self w prompt)).
  change (snd (execute_prompt self w prompt))
    with (outcome_of (execute_prompt self w prompt)).
  rewrite execute_prompt_log, execute_prompt_outcome, run_log, run_outcome, Hy, Hspawn.
  reflexivity.
Qed.

Lemma launch_failure_is_reported_witness :
  outcome_of (@execute_prompt Demo.demo_runtime Demo.demo_self
                (mkWorld "y" (LaunchFailed "No such file or directory: 'claude'")
                   600 None "/work/shop")
                "fix the bug")
  = Ok (mkResponse EmptyString false
          (Some "Failed to execute Claude command: No such file or directory: 'claude'")).
Proof.
  apply (f_equal snd
           (@launch_failure_is_reported Demo.demo_runtime Demo.demo_self
              (mkWorld "y" (LaunchFailed "No such file or directory: 'claude'")
                 600 None "/work/shop")
              "fix the bug" "No such file or directory: 'claude'" eq_refl eq_refl)).
Defined.

(** X3. A call spawns at most one child: none when the operator declines,
    and otherwise exactly one, with the command line [claude -p <combined
    prompt> --output-format stream-json --dangerously-skip-permissions],
    in the repository directory. *)
Theorem at_most_one_spawn `{Runtime} (self : Self) (w : World) (prompt : string) :
  filter is_popen (log_of (execute_prompt self w prompt))
  = if String.eqb (PyStr.lower (approval w)) "y"
    then [Popen (command_line self prompt) (repo_dir self)]
    else [].
Proof.
  rewrite execute_prompt_log, filter_app.
  destruct (String.eqb (PyStr.lower (approval w)) "y"); [| reflexivity].
  rewrite run_log, filter_app. cbn [filter gate_log is_popen app].
  f_equal.
  destruct (spawn w) as [p | what]; [| reflexivity].
  rewrite filter_app.
  destruct (supervise_benign self w p) as [Hprints _].
  rewrite (prints_have_no_popen _ Hprints).
  destruct (outcome_of (read_loop (stdout_lines p) [])); [| reflexivity].
  destruct (Z.eqb (returncode p) 0); reflexivity.
Qed.

(** X4. The output file is read at most once, and only after the
    operator approved, the child was started, its output was consumed
    without an error and it exited with code 0. *)
Theorem output_file_read_only_after_exit_0 `{Runtime}
    (self : Self) (w : World) (prompt : string) :
  filter is_read (log_of (execute_prompt self w prompt))
  = if String.eqb (PyStr.lower (approval w)) "y"
    then match spawn w with
         | LaunchFailed _ => []
         | Started p =>
             match outcome_of (read_loop (stdout_lines p) []) with
             | Raise _ => []
             | Ok _ =>
                 if Z.eqb (returncode p) 0
                 then [ReadOutputFile (output_file self)] else []
             end
         end
    else [].
Proof.
  rewrite execute_prompt_log, filter_app.
  destruct (String.eqb (PyStr.lower (approval w)) "y"); [| reflexivity].
  rewrite run_log, filter_app. cbn [filter gate_log is_read app].
  destruct (spawn w) as [p | what]; [| reflexivity].
  rewrite filter_app.
  destruct (supervise_benign self w p) as [Hprints _].
  rewrite (prints_have_no_read _ Hprints).
  destruct (outcome_of (read_loop (stdout_lines p) [])); [| reflexivity].
  destruct (Z.eqb (returncode p) 0); reflexivity.
Qed.

(** ** The read loop *)

Lemma bind_assoc {A B C} (m : M A) (k : A -> M B) (k' : B -> M C) :
  bind (bind m k) k' = bind m (fun a => bind (k a) k').
Proof.
  destruct m as [log [a | e]]; unfold bind; [| reflexivity].
  destruct (k a) as [log1 [b | e1]]; [| reflexivity].
  destruct (k' b) as [log2 r]. now rewrite app_assoc.
Qed.

Lemma bind_ext {A B} (m : M A) (k k' : A -> M B) :
  (forall a, k a = k' a) -> bind m k = bind m k'.
Proof.
  intro Hk. destruct m as [log [a | e]]; unfold bind; [| reflexivity].
  now rewrite Hk.
Qed.

(** Leading and trailing white space: [strip] leaves nothing exactly for
    the strings made of white space only. *)
Lemma lstrip_all_space (s : string) :
  PyStr.lstrip s = EmptyString <-> all_space s = true.
Proof.
  induction s as [| c s IH]; simpl; [tauto |].
  destruct (PyStr.is_space c); simpl; [exact IH |].
  split; discriminate.
Qed.

Lemma lstrip_head (s : string) (c : ascii) (r : string) :
  PyStr.lstrip s = String c r -> PyStr.is_space c = false.
Proof.
  induction s as [| c' s IH]; simpl; [discriminate |].
  destruct (PyStr.is_space c') eqn:Hc'; [exact IH |].
  intro Heq. injection Heq as <- _. exact Hc'.
Qed.

Lemma rstrip_keeps_head (c : ascii) (r : string) :
  PyStr.is_space c = false -> PyStr.rstrip (String c r) <> EmptyString.
Proof.
  intro Hc. simpl. rewrite Hc. destruct (PyStr.rstrip r); discriminate.
Qed.

Lemma strip_empty_iff (s : string) :
  PyStr.strip s = EmptyString <-> all_space s = true.
Proof.
  unfold PyStr.strip. rewrite <- lstrip_all_space. split.
  - destruct (PyStr.lstrip s) as [| c r] eqn:Hl; [reflexivity |].
    intro Hr. exfalso. now apply (rstrip_keeps_head c r (lstrip_head s c r Hl)).
  - intros ->. reflexivity.
Qed.

Section Loop.
Context `{Runtime}.

(** X5. When the read loop completes, the transcript is extended by every
    line that was read, stripped, in the order of arrival: no line is left
    out, whether it was JSON or not. *)
Theorem transcript_keeps_every_line (pending transcript result : list string) :
  outcome_of (read_loop pending transcript) = Ok result ->
  result = (transcript ++ transcript_of pending)%list.
Proof.
  revert transcript.
  induction pending as [| output rest IH]; intros transcript.
  - cbn. intro Hr. injection Hr as <-. now rewrite app_nil_r.
  - rewrite read_loop_cons, outcome_bind.
    destruct (outcome_of (handle_output output)); [| discriminate].
    intro Hr. apply IH in Hr. subst result.
    unfold transcript_of. cbn [filter].
    destruct (PyStr.nonempty output); cbn [map]; [| reflexivity].
    now rewrite <- app_assoc.
Qed.

(** X6. Reading a stream in two parts is reading the first part and then
    the second one from the transcript reached: events keep their order,
    and an error in the first part ends the loop before the second. *)
Theorem read_loop_app (first second transcript : list string) :
  read_loop (first ++ second) transcript
  = bind (read_loop first transcript) (fun reached => read_loop second reached).
Proof.
  revert transcript.
  induction first as [| output rest IH]; intro transcript.
  - cbn [app]. cbn [read_loop]. now rewrite bind_ret.
  - cbn [app]. rewrite !read_loop_cons, bind_assoc.
    apply bind_ext. intros _. apply IH.
Qed.

(** X7. A stream on every line of which [json.loads] raises
    JSONDecodeError never makes the loop fail: each line that is not
    blank is echoed as "[Output]: <line>", stripped, in order, and the
    transcript receives every line. *)
Theorem plain_output_is_echoed (lines transcript : list string) :
  Forall (fun output => json_loads (PyStr.strip output) = NotJSON) lines ->
  read_loop lines transcript
  = (flat_map echo lines, Ok (transcript ++ transcript_of lines)%list).
Proof.
  intro Hplain. revert transcript.
  induction Hplain as [| output rest Hout _ IH]; intro transcript.
  - cbn. now rewrite app_nil_r.
  - rewrite read_loop_cons, (handle_output_not_json output Hout), IH.
    unfold bind, transcript_of, echo. cbn [flat_map filter].
    destruct (PyStr.nonempty output); cbn [map andb]; [| reflexivity].
    now rewrite <- app_assoc.
Qed.

(** X8. A line made of white space only (the empty string is not JSON)
    prints nothing and cannot fail. *)
Theorem blank_line_is_silent (output : string) :
  json_loads EmptyString = NotJSON ->
  all_space output = true ->
  handle_output output = ([], Ok tt).
Proof.
  intros Hjson Hblank. apply strip_empty_iff in Hblank.
  rewrite handle_output_not_json; rewrite Hblank; [| exact Hjson].
  cbn [PyStr.nonempty]. now rewrite andb_false_r.
Qed.

End Loop.

Lemma transcript_keeps_every_line_witness :
  ["working"; "{}"] = ([] ++ transcript_of [Demo.line "working"; Demo.line "  {}"])%list.
Proof.
  apply (@transcript_keeps_every_line Demo.demo_runtime
           [Demo.line "working"; Demo.line "  {}"] [] ["working"; "{}"]).
  vm_compute. reflexivity.
Defined.

Lemma plain_output_is_echoed_witness :
  @read_loop Demo.demo_runtime [Demo.line "step 1"; nl; Demo.line "  step 2"] []
  = ([Print "[Output]: step 1"; Print "[Output]: step 2"],
     Ok ["step 1"; EmptyString; "step 2"]).
Proof.
  apply (@plain_output_is_echoed Demo.demo_runtime
           [Demo.line "step 1"; nl; Demo.line "  step 2"] []).
  repeat constructor.
Defined.

Lemma blank_line_is_silent_witness :
  @handle_output Demo.demo_runtime (Demo.line "   ") = ([], Ok tt).
Proof.
  apply (@blank_line_is_silent Demo.demo_runtime (Demo.line "   "));
    reflexivity.
Defined.

(** ** The display *)

Lemma all_str_map (names : list string) : all_str (map VStr names) = Some names.
Proof.
  induction names as [| n names IH]; [reflexivity |].
  cbn [map all_str]. now rewrite IH.
Qed.

Lemma basename_has_no_slash (p : string) :
  PyStr.contains "/" (PyStr.basename p) = false.
Proof.
  induction p as [| c p IH]; [reflexivity |].
  cbn [PyStr.basename].
  destruct (Ascii.eqb c "/") eqn:Hc; [exact IH |].
  destruct (PyStr.contains "/" p) eqn:Hp; [exact IH |].
  cbn [PyStr.contains PyStr.startswith]. rewrite Hp, Ascii.eqb_sym, Hc. reflexivity.
Qed.

Lemma length_app (a b : string) :
  PyStr.len (a ++ b)%string = PyStr.len a + PyStr.len b.
Proof.
  unfold PyStr.len. induction a as [| c a IH]; [reflexivity |].
  change (String c a ++ b)%string with (String c (a ++ b)%string).
  cbn [String.length]. now rewrite IH.
Qed.

Lemma take_bound (n : nat) (s : string) : PyStr.len (PyStr.take n s) <= n.
Proof.
  unfold PyStr.len. revert s.
  induction n as [| n IH]; intros [| c s]; cbn [PyStr.take String.length]; try lia.
  specialize (IH s). lia.
Qed.

(** X9. Whatever value a line decodes to, the display only prints, and
    when it fails it is with an AttributeError, a TypeError, a ValueError,
    an OverflowError or a KeyError (slicing an object, where a slice can
    be hashed): never with a JSONDecodeError, which the read loop would
    take for a line that is not JSON, nor with a timeout. *)
Theorem display_only_prints `{Runtime} (json_obj : value) :
  forallb is_print (log_of (_display_claude_progress json_obj)) = true
  /\ match outcome_of (_display_claude_progress json_obj) with
     | Ok _ => True
     | Raise e =>
         match e with
         | AttributeError _ _ | TypeError _ | ValueError _ | OverflowError _
         | KeyError _ => True
         | _ => False
         end
     end.
Proof.
  destruct (benign_display json_obj) as [Hlog Hout]. split; [exact Hlog |].
  destruct (outcome_of (_display_claude_progress json_obj)) as [[] | e]; [exact I |].
  destruct e; solve [exact I | discriminate Hout].
Qed.

(** X10. An object whose [type] is missing, or is not one of "system",
    "assistant", "user" and "result", is ignored: nothing is printed and
    nothing fails, whatever else the object holds. *)
Theorem unknown_type_is_ignored `{Runtime} (items : list (string * value)) :
  known_type (match lookup "type" items with Some t => t | None => VNone end) = false ->
  _display_claude_progress (VDict items) = ([], Ok tt).
Proof.
  unfold known_type. intro Hunknown.
  apply orb_false_iff in Hunknown as [Hunknown Hresult].
  apply orb_false_iff in Hunknown as [Hunknown Huser].
  apply orb_false_iff in Hunknown as [Hsystem Hassistant].
  unfold _display_claude_progress. cbn [get]. rewrite !bind_ret.
  rewrite Hsystem, Hassistant, Huser, Hresult.
  reflexivity.
Qed.

Lemma unknown_type_is_ignored_witness :
  @_display_claude_progress Demo.demo_runtime
     (VDict [("type", VStr "stream_event"); ("message", VInt 7)])
  = ([], Ok tt).
Proof.
  apply (@unknown_type_is_ignored Demo.demo_runtime
           [("type", VStr "stream_event"); ("message", VInt 7)]).
  reflexivity.
Defined.

(** X11. For a system event of subtype "init" whose tools are a list of
    names: the session line and the model line are printed (the model is
    "unknown" when absent), and then, unless the list is empty, one line
    with at most the first five names separated by ", ", followed by "..."
    exactly when there are more than five. *)
Theorem init_shows_five_tools `{Runtime}
    (items : list (string * value)) (names : list string) :
  lookup "type" items = Some (VStr "system") ->
  lookup "subtype" items = Some (VStr "init") ->
  lookup "tools" items = Some (VList (map VStr names)) ->
  _display_claude_progress (VDict items)
  = ((Print "Initializing Claude session..."
      :: Print ("   Model: "
                ++ fmt (match lookup "model" items with
                        | Some m => m
                        | None => VStr "unknown"
                        end))
      :: match names with
         | [] => []
         | _ :: _ =>
             [Print ("   Available tools: " ++ PyStr.join ", " (firstn 5 names)
                     ++ if 5 <? List.length names then "..." else EmptyString)]
         end)%list,
     Ok tt).
Proof.
  intros Hty Hsub Htools.
  unfold _display_claude_progress, display_system. cbn [get].
  rewrite Hty, Hsub, Htools, ?bind_ret.
  cbn [eq_str String.eqb Ascii.eqb Bool.eqb andb].
  rewrite ?bind_ret. cbn [eq_str String.eqb Ascii.eqb Bool.eqb andb].
  destruct names as [| n names]; [reflexivity |].
  cbn [map truthy slice].
  change (VStr n :: map VStr names) with (map VStr (n :: names)).
  rewrite firstn_map, bind_ret. unfold join. rewrite all_str_map, bind_ret.
  cbn [len]. rewrite bind_ret, length_map.
  reflexivity.
Qed.

Lemma init_shows_five_tools_witness :
  @_display_claude_progress Demo.demo_runtime
     (VDict [("type", VStr "system"); ("subtype", VStr "init");
             ("tools", VList (map VStr ["Task"; "Bash"; "Glob"; "Grep"; "Read"; "Edit"]))])
  = ([Print "Initializing Claude session...";
      Print "   Model: unknown";
      Print "   Available tools: Task, Bash, Glob, Grep, Read..."],
     Ok tt).
Proof.
  apply (@init_shows_five_tools Demo.demo_runtime
           [("type", VStr "system"); ("subtype", VStr "init");
            ("tools", VList (map VStr ["Task"; "Bash"; "Glob"; "Grep"; "Read"; "Edit"]))]
           ["Task"; "Bash"; "Glob"; "Grep"; "Read"; "Edit"]);
    reflexivity.
Defined.

(** X12. For a [tool_use] item naming Write, Edit or Read with a file
    path that is a string and not empty: after the line that names the
    tool, one line shows "Creating", "Editing" or "Reading" and the base
    name of the path: never a directory part, since the base name holds no
    slash. *)
Theorem file_tool_shows_base_name `{Runtime}
    (item input : list (string * value)) (tool verb path : string) :
  In (tool, verb) [("Write", "Creating"); ("Edit", "Editing"); ("Read", "Reading")] ->
  lookup "type" item = Some (VStr "tool_use") ->
  lookup "name" item = Some (VStr tool) ->
  lookup "input" item = Some (VDict input) ->
  lookup "file_path" input = Some (VStr path) ->
  path <> EmptyString ->
  display_assistant_item (VDict item)
  = ([Print (nl ++ "Using tool: " ++ tool);
      Print ("   " ++ verb ++ " file: " ++ PyStr.basename path)],
     Ok tt)
  /\ PyStr.contains "/" (PyStr.basename path) = false.
Proof.
  intros Htool Hty Hname Hinput Hpath Hne.
  split; [| apply basename_has_no_slash].
  apply nonempty_true in Hne.
  unfold display_assistant_item, display_file_tool. cbn [get].
  rewrite Hty, Hname, Hinput, ?bind_ret.
  cbn [eq_str String.eqb Ascii.eqb Bool.eqb andb]. rewrite ?bind_ret.
  cbn [get fmt]. rewrite Hpath, ?bind_ret.
  cbn [truthy os_path_basename]. rewrite Hne, ?bind_ret.
  cbn [In] in Htool.
  destruct Htool as [Heq | [Heq | [Heq | []]]]; injection Heq as <- <-; reflexivity.
Qed.

Lemma file_tool_shows_base_name_witness :
  @display_assistant_item Demo.demo_runtime
     (VDict [("type", VStr "tool_use"); ("name", VStr "Edit");
             ("input", VDict [("file_path", VStr "/work/shop/src/cart.py")])])
  = ([Print (nl ++ "Using tool: Edit"); Print "   Editing file: cart.py"], Ok tt).
Proof.
  apply (proj1 (@file_tool_shows_base_name Demo.demo_runtime
                  [("type", VStr "tool_use"); ("name", VStr "Edit");
                   ("input", VDict [("file_path", VStr "/work/shop/src/cart.py")])]
                  [("file_path", VStr "/work/shop/src/cart.py")]
                  "Edit" "Editing" "/work/shop/src/cart.py"
                  (or_intror (or_introl eq_refl)) eq_refl eq_refl eq_refl eq_refl
                  ltac:(discriminate))).
Defined.

(** X13. For a text item of an assistant message: a text made of white
    space only prints nothing; any other text is printed after an empty
    line, as it is, with its leading and trailing white space. *)
Theorem assistant_text_is_shown_unless_blank `{Runtime}
    (item : list (string * value)) (text : string) :
  lookup "type" item = Some (VStr "text") ->
  lookup "text" item = Some (VStr text) ->
  display_assistant_item (VDict item)
  = (if all_space text then [] else [Print (nl ++ text)], Ok tt).
Proof.
  intros Hty Htext.
  unfold display_assistant_item. cbn [get].
  rewrite Hty, Htext, ?bind_ret.
  cbn [eq_str String.eqb Ascii.eqb Bool.eqb andb strip fmt]. rewrite ?bind_ret.
  destruct (all_space text) eqn:Hblank.
  - apply strip_empty_iff in Hblank. now rewrite Hblank.
  - destruct (PyStr.strip text) eqn:Hstrip; [| reflexivity].
    apply strip_empty_iff in Hstrip. congruence.
Qed.

Lemma assistant_text_is_shown_unless_blank_witness :
  @display_assistant_item Demo.demo_runtime
     (VDict [("type", VStr "text"); ("text", VStr "  Done. ")])
  = ([Print (nl ++ "  Done. ")], Ok tt).
Proof.
  apply (@assistant_text_is_shown_unless_blank Demo.demo_runtime
           [("type", VStr "text"); ("text", VStr "  Done. ")] "  Done. ");
    reflexivity.
Defined.

(** X14. A tool result whose content is not a string (a list of content
    blocks, a number, null) makes the display fail with an AttributeError
    for [lower], before anything is printed. *)
Theorem structured_tool_result_raises `{Runtime}
    (item : list (string * value)) (result_content : value) :
  lookup "type" item = Some (VStr "tool_result") ->
  lookup "content" item = Some result_content ->
  (forall s, result_content <> VStr s) ->
  display_user_item (VDict item)
  = ([], Raise (AttributeError (type_name result_content) "lower")).
Proof.
  intros Hty Hcontent Hnot.
  unfold display_user_item, display_tool_result. cbn [get].
  rewrite Hty, Hcontent, ?bind_ret.
  cbn [eq_str String.eqb Ascii.eqb Bool.eqb andb].
  destruct result_content; try reflexivity.
  now destruct (Hnot s).
Qed.

Lemma structured_tool_result_raises_witness :
  @display_user_item Demo.demo_runtime
     (VDict [("type", VStr "tool_result");
             ("content", VList [VDict [("type", VStr "text"); ("text", VStr "ok")]])])
  = ([], Raise (AttributeError "list" "lower")).
Proof.
  apply (@structured_tool_result_raises Demo.demo_runtime
           [("type", VStr "tool_result");
            ("content", VList [VDict [("type", VStr "text"); ("text", VStr "ok")]])]
           (VList [VDict [("type", VStr "text"); ("text", VStr "ok")]]));
    [reflexivity | reflexivity | discriminate].
Defined.

(** X15. Whatever the length of a tool result text, the line printed for
    it has at most 113 characters: the marker, at most 100 characters of
    the text and the three dots. *)
Theorem tool_result_line_is_bounded `{Runtime} (text : string) :
  Forall (fun ev => PyStr.len (printed ev) <= 113)
         (log_of (display_tool_result (VStr text))).
Proof.
  unfold display_tool_result. cbn [lower slice len]. rewrite ?bind_ret.
  pose proof (take_bound 100 text) as Hhead.
  destruct (PyStr.contains "successfully" (PyStr.lower text)).
  - apply Forall_cons; [| apply Forall_nil]. cbn. lia.
  - destruct (PyStr.contains "error" (PyStr.lower text)
              || PyStr.contains "failed" (PyStr.lower text));
      rewrite ?bind_ret; (apply Forall_cons; [| apply Forall_nil]);
      cbn [printed fmt]; rewrite !length_app; unfold ellipsis_if_longer;
      try destruct (100 <? PyStr.len text);
      change (PyStr.len "   Error: ") with 10;
      change (PyStr.len "   ") with 3;
      change (PyStr.len "...") with 3;
      change (PyStr.len EmptyString) with 0; lia.
Qed.

(** X16. For a Bash command that is a string, the summary line has at
    most 65 characters, however long the command is. *)
Theorem bash_line_is_bounded `{Runtime}
    (content_item input : list (string * value)) (command : string) :
  lookup "input" content_item = Some (VDict input) ->
  lookup "command" input = Some (VStr command) ->
  Forall (fun ev => PyStr.len (printed ev) <= 65)
         (log_of (display_bash (VDict content_item))).
Proof.
  intros Hinput Hcommand.
  unfold display_bash. cbn [get]. rewrite Hinput, ?bind_ret.
  cbn [get]. rewrite Hcommand, ?bind_ret. cbn [truthy].
  destruct (PyStr.nonempty command); [| apply Forall_nil].
  cbn [slice len]. rewrite ?bind_ret.
  apply Forall_cons; [| apply Forall_nil].
  cbn [printed fmt]. rewrite !length_app. unfold ellipsis_if_longer.
  pose proof (take_bound 50 command) as Hhead.
  destruct (50 <? PyStr.len command);
    change (PyStr.len "   Running: ") with 12;
    change (PyStr.len "...") with 3;
    change (PyStr.len EmptyString) with 0; lia.
Qed.

Lemma bash_line_is_bounded_witness :
  Forall (fun ev => PyStr.len (printed ev) <= 65)
         (log_of (@display_bash Demo.demo_runtime
                    (VDict (Demo.bash_item Demo.long_command)))).
Proof.
  apply (@bash_line_is_bounded Demo.demo_runtime
           (Demo.bash_item Demo.long_command)
           [("command", VStr Demo.long_command)] Demo.long_command);
    reflexivity.
Defined.

(** ** The prompt sent to the agent *)

Lemma contains_prefix (p a s : string) :
  PyStr.contains p s = true -> PyStr.contains p (a ++ s)%string = true.
Proof.
  intro Hs. induction a as [| c a IH]; [exact Hs |].
  change (String c a ++ s)%string with (String c (a ++ s)%string).
  now apply contains_later.
Qed.

(** X17. The prompt given to the agent starts with the caller's prompt,
    unchanged, and the directive that follows names the output file. *)
Theorem combined_prompt_keeps_prompt (self : Self) (prompt : string) :
  PyStr.startswith prompt (combined_prompt self prompt) = true
  /\ PyStr.contains (output_file self) (combined_prompt self prompt) = true.
Proof.
  unfold combined_prompt. split; [apply startswith_app |].
  do 4 apply contains_prefix.
  apply contains_here, startswith_app.
Qed.

(** ** Readiness checks *)

Lemma lower_char_idem (c : ascii) :
  PyStr.lower_char (PyStr.lower_char c) = PyStr.lower_char c.
Proof. destruct c as [[] [] [] [] [] [] [] []]; vm_compute; reflexivity. Qed.

Lemma lower_idem (s : string) : PyStr.lower (PyStr.lower s) = PyStr.lower s.
Proof.
  induction s as [| c s IH]; [reflexivity |].
  cbn [PyStr.lower]. now rewrite lower_char_idem, IH.
Qed.

Lemma lower_char_slash (c : ascii) :
  Ascii.eqb (PyStr.lower_char c) "/" = Ascii.eqb c "/".
Proof. destruct c as [[] [] [] [] [] [] [] []]; vm_compute; reflexivity. Qed.

Lemma contains_slash_lower (s : string) :
  PyStr.contains "/" (PyStr.lower s) = PyStr.contains "/" s.
Proof.
  induction s as [| c s IH]; [reflexivity |].
  cbn [PyStr.lower PyStr.contains PyStr.startswith].
  now rewrite IH, (Ascii.eqb_sym "/"%char), lower_char_slash, (Ascii.eqb_sym c).
Qed.

Lemma basename_lower (p : string) :
  PyStr.basename (PyStr.lower p) = PyStr.lower (PyStr.basename p).
Proof.
  induction p as [| c p IH]; [reflexivity |].
  cbn [PyStr.lower PyStr.basename].
  rewrite lower_char_slash, contains_slash_lower, IH.
  destruct (Ascii.eqb c "/"); [reflexivity |].
  destruct (PyStr.contains "/" p); reflexivity.
Qed.

Lemma nonempty_lower (s : string) :
  PyStr.nonempty (PyStr.lower s) = PyStr.nonempty s.
Proof. destruct s; reflexivity. Qed.

(** X18. The project check ignores case: lowering the project name and
    the working directory never changes its result. *)
Theorem project_check_ignores_case (self : Self) (w : World) :
  outcome_of (is_ide_open_with_correct_project self w)
  = outcome_of
      (is_ide_open_with_correct_project
         (mkSelf (agent_name self) (output_file self) (repo_dir self)
                 (option_map PyStr.lower (_current_project_name self)))
         (mkWorld (approval w) (spawn w) (agent_timeout_seconds w) (artifact w)
                  (PyStr.lower (getcwd w)))).
Proof.
  rewrite !project_check_outcome. cbn [_current_project_name getcwd].
  destruct (_current_project_name self) as [name |]; [| reflexivity].
  cbn [option_map].
  now rewrite nonempty_lower, basename_lower, !lower_idem.
Qed.

Section Probes.
Context `{Runtime}.
Import Readiness.

Lemma is_coding_agent_open_eq (probe : which_run) :
  is_coding_agent_open probe
  = match probe with
    | Completed rc out =>
        if Z.eqb rc 0
        then ([Print ("SUCCESS: Claude Code command is available at "
                      ++ PyStr.strip out)], Ok true)
        else ([Print "INFO: Claude Code command not found in PATH"], Ok false)
    | RunFailed what =>
        ([Print ("INFO: Could not check for Claude Code command: "
                 ++ str_exn (OSError what))], Ok false)
    end.
Proof.
  unfold is_coding_agent_open.
  destruct probe as [rc out | what]; [| reflexivity].
  rewrite bind_ret. cbn [fst snd]. destruct (Z.eqb rc 0); reflexivity.
Qed.

Lemma agent_probe_outcome (probe : which_run) :
  exists b : bool, outcome_of (is_coding_agent_open probe) = Ok b.
Proof.
  rewrite is_coding_agent_open_eq.
  destruct probe as [rc out | what]; [destruct (Z.eqb rc 0) |];
    eexists; reflexivity.
Qed.

(** X19. [is_coding_agent_open] never raises: it returns True exactly when
    [which claude] completes with exit code 0, False for any other exit
    code and when the probe itself fails; in each case it prints a single
    line. *)
Theorem agent_probe_never_raises (probe : which_run) :
  exists b : bool,
    outcome_of (is_coding_agent_open probe) = Ok b
    /\ (b = true <-> exists out, probe = Completed 0 out)
    /\ List.length (log_of (is_coding_agent_open probe)) = 1
    /\ forallb is_print (log_of (is_coding_agent_open probe)) = true.
Proof.
  rewrite is_coding_agent_open_eq.
  destruct probe as [rc out | what].
  - destruct (Z.eqb rc 0) eqn:Hrc.
    + apply Z.eqb_eq in Hrc. subst rc. exists true. repeat split; eauto.
    + apply Z.eqb_neq in Hrc. exists false. repeat split; try discriminate.
      intros [out' Heq]. injection Heq as Heq _. contradiction.
  - exists false. repeat split; try discriminate.
    intros [out Heq]. discriminate Heq.
Qed.

(** X20. [is_coding_agent_open_with_project] returns the conjunction of
    the two checks, and when the command is not available the project
    check is not run: nothing is printed beyond the line of the probe. *)
Theorem combined_check_is_conjunction (self : Self) (w : World) (probe : which_run) :
  exists available correct : bool,
    outcome_of (is_coding_agent_open probe) = Ok available
    /\ outcome_of (is_ide_open_with_correct_project self w) = Ok correct
    /\ outcome_of (is_coding_agent_open_with_project self w probe)
       = Ok (available && correct)
    /\ (available = false ->
        log_of (is_coding_agent_open_with_project self w probe)
        = log_of (is_coding_agent_open probe)).
Proof.
  destruct (agent_probe_outcome probe) as [available Ha].
  exists available. eexists.
  split; [exact Ha |]. split; [apply project_check_outcome |].
  unfold is_coding_agent_open_with_project.
  rewrite outcome_bind, log_bind, Ha.
  destruct available; cbn [negb andb].
  - split; [| discriminate].
    rewrite outcome_bind, project_check_outcome.
    match goal with
    | |- context [negb ?c] => destruct c
    end; reflexivity.
  - split; [reflexivity |]. intros _. now rewrite app_nil_r.
Qed.

Lemma with_project_outcome (self : Self) (w : World) (probe : which_run) :
  exists ready : bool,
    outcome_of (is_coding_agent_open_with_project self w probe) = Ok ready
    /\ ((forall out, probe <> Completed 0 out) -> ready = false).
Proof.
  unfold is_coding_agent_open_with_project.
  rewrite outcome_bind, is_coding_agent_open_eq.
  destruct probe as [rc out | what].
  - destruct (Z.eqb rc 0) eqn:Hrc; cbn [outcome_of snd negb].
    + rewrite outcome_bind, project_check_outcome.
      match goal with
      | |- context [negb ?c] => destruct c
      end; eexists; (split; [reflexivity |]); intro Hnot;
        apply Z.eqb_eq in Hrc; subst rc; now destruct (Hnot out).
    + exists false. split; reflexivity.
  - exists false. split; reflexivity.
Qed.

(** X21. [open_coding_interface], once the project has been set from the
    repository directory, returns what [is_coding_agent_open_with_project]
    returns for the first probe: the second probe, made on failure to
    choose the explanation printed, never changes the result. In
    particular the result is False whenever the first probe does not
    complete with exit code 0. *)
Theorem open_interface_follows_first_check
    (set_current_project : Self -> string -> M Self)
    (self self' : Self) (w : World) (first second : which_run) :
  repo_dir self <> EmptyString ->
  outcome_of (set_current_project self (repo_dir self)) = Ok self' ->
  outcome_of (open_coding_interface set_current_project self w first second)
  = outcome_of (is_coding_agent_open_with_project self' w first)
  /\ ((forall out, first <> Completed 0 out) ->
      outcome_of (open_coding_interface set_current_project self w first second)
      = Ok false).
Proof.
  intros Hrepo Hset. apply nonempty_true in Hrepo.
  assert (Hfirst :
    outcome_of (open_coding_interface set_current_project self w first second)
    = outcome_of (is_coding_agent_open_with_project self' w first)).
  { unfold open_coding_interface.
    rewrite outcome_bind, outcome_print, outcome_bind, Hrepo, Hset, outcome_bind.
    destruct (with_project_outcome self' w first) as [ready [Hready _]].
    rewrite Hready. destruct ready.
    - now rewrite outcome_bind, outcome_print.
    - rewrite outcome_bind.
      destruct (agent_probe_outcome second) as [available ->].
      destruct available.
      + rewrite outcome_bind.
        destruct (project_name_truthy self'); autorewrite with trace; reflexivity.
      + autorewrite with trace. reflexivity. }
  split; [exact Hfirst |].
  intro Hnot. rewrite Hfirst.
  destruct (with_project_outcome self' w first) as [ready [Hready Hfalse]].
  now rewrite Hready, (Hfalse Hnot).
Qed.

End Probes.

Lemma open_interface_follows_first_check_witness :
  outcome_of
    (@Readiness.open_coding_interface Demo.demo_runtime
       (fun self path =>
          ret (mkSelf (agent_name self) (output_file self) (repo_dir self)
                      (Some (PyStr.basename path))))
       Demo.demo_self Demo.late_world
       (Readiness.Completed 1 EmptyString)
       (Readiness.Completed 0 (Demo.line "/usr/local/bin/claude")))
  = Ok false.
Proof.
  apply (proj2 (@open_interface_follows_first_check Demo.demo_runtime
                  (fun self path =>
                     ret (mkSelf (agent_name self) (output_file self) (repo_dir self)
                                 (Some (PyStr.basename path))))
                  Demo.demo_self Demo.demo_self Demo.late_world
                  (Readiness.Completed 1 EmptyString)
                  (Readiness.Completed 0 (Demo.line "/usr/local/bin/claude"))
                  ltac:(discriminate) eq_refl)).
  intros out Heq. discriminate Heq.
Defined.

(** ** The limits of the decoder and of slicing *)

(** Slicing an object raises KeyError where a slice can be hashed and
    TypeError elsewhere; the display lets either through. *)
Lemma object_command_raises `{Runtime}
    (content_item input : list (string * value)) (k : string) (v : value)
    (rest : list (string * value)) :
  lookup "input" content_item = Some (VDict input) ->
  lookup "command" input = Some (VDict ((k, v) :: rest)) ->
  display_bash (VDict content_item)
  = ([], Raise (if slice_is_hashable then KeyError "slice(None, n, None)"
               else TypeError "unhashable type: 'slice'")).
Proof.
  intros Hinput Hcommand.
  unfold display_bash. cbn [get]. rewrite Hinput, ?bind_ret.
  cbn [get]. rewrite Hcommand, ?bind_ret. cbn [truthy slice].
  destruct slice_is_hashable; reflexivity.
Qed.

(** X22. A line on which [json.loads] fails with something other than
    JSONDecodeError (RecursionError on nesting that is too deep, ValueError
    on an integer of more than 4300 digits) is not taken for plain
    output: the exception leaves the read loop, the lines after it are not
    read, and [execute_prompt] returns the catch-all failure for it. *)
Theorem decoder_failure_aborts_execute `{Runtime}
    (self : Self) (w : World) (prompt : string) (p : Process)
    (before after : list string) (output : string) (why : decoder_failure) :
  PyStr.lower (approval w) = "y" ->
  spawn w = Started p ->
  stdout_lines p = (before ++ output :: after)%list ->
  Forall (fun o => outcome_of (handle_output o) = Ok tt) before ->
  output <> EmptyString ->
  json_loads (PyStr.strip output) = DecoderFailed why ->
  handle_output output = ([], Raise (decoder_exn why))
  /\ log_of (read_loop (stdout_lines p) []) = log_of (read_loop before [])
  /\ outcome_of (execute_prompt self w prompt)
     = Ok (mkResponse EmptyString false
             (Some ("Failed to execute Claude command: "
                    ++ str_exn (decoder_exn why)))).
Proof.
  intros Hy Hspawn Hlines Hbefore Hne Hjson.
  assert (Hraise : handle_output output = ([], Raise (decoder_exn why))).
  { unfold handle_output. apply nonempty_true in Hne. rewrite Hne, Hjson.
    destruct why; reflexivity. }
  destruct (read_loop_breaks before after output _ Hbefore Hraise []) as [Hout Hlog].
  split; [exact Hraise |].
  split; [now rewrite Hlines |].
  rewrite execute_prompt_outcome, run_outcome, Hy, Hspawn, Hlines, Hout.
  reflexivity.
Qed.

Lemma decoder_failure_aborts_execute_witness :
  outcome_of (@execute_prompt Demo.limited_runtime Demo.demo_self
                (Demo.world "y"
                   (Demo.child [Demo.line "working"; Demo.line Demo.deep_text;
                                Demo.line "done"] 3 0 EmptyString)
                   (Some "done"))
                "fix the bug")
  = Ok (mkResponse EmptyString false
          (Some "Failed to execute Claude command: maximum recursion depth exceeded")).
Proof.
  apply (proj2 (proj2
           (@decoder_failure_aborts_execute Demo.limited_runtime Demo.demo_self
              (Demo.world "y"
                 (Demo.child [Demo.line "working"; Demo.line Demo.deep_text;
                              Demo.line "done"] 3 0 EmptyString)
                 (Some "done"))
              "fix the bug"
              (Demo.child [Demo.line "working"; Demo.line Demo.deep_text;
                           Demo.line "done"] 3 0 EmptyString)
              [Demo.line "working"] [Demo.line "done"] (Demo.line Demo.deep_text)
              NestingTooDeep
              eq_refl eq_refl eq_refl
              ltac:(repeat constructor) ltac:(discriminate)
              ltac:(vm_compute; reflexivity)))).
Defined.
